(** * travel-final-modular: a shallow embedding of the backend and UI helpers

    Python values are modelled as [PyVal]; a Python [dict] is an
    association list kept in insertion order with unique keys.  Exceptions
    are [PyExc]; a computation that may raise returns [Res].  Network
    effects are recorded in a trace of [Call]s; every response a vendor
    gives is an explicit argument of the operation that receives it, and
    so is every reading of [time.time()].  Times are integers (seconds). *)

From Stdlib Require Import ZArith QArith List Bool Lia.
From Stdlib Require Import Strings.String Strings.Ascii Numbers.DecimalString.
From Stdlib Require Qcanon.
Import ListNotations.
Open Scope string_scope.
Open Scope Z_scope.

(** ** Python values, dicts and truthiness *)

Set Warnings "-register-all".

Inductive PyVal : Type :=
| PNone
| PBool (b : bool)
| PInt (z : Z)
| PFloat (q : Q)
| PStr (s : string)
| PList (l : list PyVal)
| PDict (d : list (string * PyVal)).

Definition pydict := list (string * PyVal).

(** [d.get(k)] ([None] when the key is missing) *)
Fixpoint dict_get (d : pydict) (k : string) : option PyVal :=
  match d with
  | [] => None
  | (k', v) :: rest => if String.eqb k k' then Some v else dict_get rest k
  end.

Definition dict_get_or (d : pydict) (k : string) (dflt : PyVal) : PyVal :=
  match dict_get d k with Some v => v | None => dflt end.

(** [k in d] *)
Definition dict_mem (d : pydict) (k : string) : bool :=
  match dict_get d k with Some _ => true | None => false end.

(** [d[k] = v]: replaces in place when present, appends otherwise *)
Fixpoint dict_set (d : pydict) (k : string) (v : PyVal) : pydict :=
  match d with
  | [] => [(k, v)]
  | (k', v') :: rest =>
      if String.eqb k k' then (k', v) :: rest else (k', v') :: dict_set rest k v
  end.

(** [d1.update(d2)], and [d1 | d2] on a copy of [d1] *)
Definition dict_update (d1 d2 : pydict) : pydict :=
  fold_left (fun acc kv => dict_set acc (fst kv) (snd kv)) d2 d1.

Definition py_truthy (v : PyVal) : bool :=
  match v with
  | PNone => false
  | PBool b => b
  | PInt z => negb (z =? 0)
  | PFloat q => negb (Qeq_bool q 0)
  | PStr s => negb (String.eqb s "")
  | PList l => match l with [] => false | _ => true end
  | PDict d => match d with [] => false | _ => true end
  end.

Definition str_truthy (s : string) : bool := negb (String.eqb s "").

(** [os.getenv(name)] *)
Definition Environ := string -> option string.

Definition env_truthy (env : Environ) (name : string) : bool :=
  match env name with Some s => str_truthy s | None => false end.

(** ** Exceptions and results *)

Inductive PyExc : Type :=
| ValueError (msg : string)
| TypeError (msg : string)
| KeyError (key : string)
| IndexError (msg : string)
| AttributeError (msg : string)
| OverflowError (msg : string)
| HTTPStatusError (status : Z) (msg : string)  (* httpx.HTTPStatusError *)
| RequestError (msg : string)                  (* httpx transport errors *)
| HTTPException (status : Z) (detail : string). (* fastapi.HTTPException *)

Inductive Res (A : Type) : Type :=
| Ok (a : A)
| Raise (e : PyExc).
Arguments Ok {A} a.
Arguments Raise {A} e.

Definition z_str (z : Z) : string := NilZero.string_of_int (Z.to_int z).

(** [str(e)]; a [KeyError] carries the [repr] of its key *)
Definition exc_str (e : PyExc) : string :=
  match e with
  | ValueError m | TypeError m | IndexError m | AttributeError m
  | OverflowError m | RequestError m => m
  | KeyError k => k
  | HTTPStatusError _ m => m
  | HTTPException c d => z_str c ++ ": " ++ d
  end.

(** [type(v).__name__] *)
Definition py_type_name (v : PyVal) : string :=
  match v with
  | PNone => "NoneType"
  | PBool _ => "bool"
  | PInt _ => "int"
  | PFloat _ => "float"
  | PStr _ => "str"
  | PList _ => "list"
  | PDict _ => "dict"
  end.

(** [v[k]] with a string key *)
Definition py_getitem (v : PyVal) (k : string) : Res PyVal :=
  match v with
  | PDict d =>
      match dict_get d k with
      | Some x => Ok x
      | None => Raise (KeyError ("'" ++ k ++ "'"))
      end
  | PList _ => Raise (TypeError "list indices must be integers or slices, not str")
  | PStr _ => Raise (TypeError "string indices must be integers, not 'str'")
  | _ => Raise (TypeError ("'" ++ py_type_name v ++ "' object is not subscriptable"))
  end.

(** [v.get(k)]: only a dict has the method *)
Definition py_dict_get (v : PyVal) (k : string) : Res PyVal :=
  match v with
  | PDict d => Ok (dict_get_or d k PNone)
  | _ => Raise (AttributeError ("'" ++ py_type_name v ++ "' object has no attribute 'get'"))
  end.

(** ** Reading numbers from strings

    Strings are sequences of characters with code points below 256. *)

(** [str.strip()]: Python's whitespace among these characters is 9-13,
    28-32, 133 and 160. *)
Definition is_py_space (c : ascii) : bool :=
  let n := nat_of_ascii c in
  ((9 <=? n) && (n <=? 13))%nat || ((28 <=? n) && (n <=? 32))%nat
  || (n =? 133)%nat || (n =? 160)%nat.

Fixpoint lstrip (s : string) : string :=
  match s with
  | EmptyString => EmptyString
  | String c rest => if is_py_space c then lstrip rest else s
  end.

Fixpoint rev_string (s : string) : string :=
  match s with
  | EmptyString => EmptyString
  | String c rest => rev_string rest ++ String c EmptyString
  end.

Definition py_strip (s : string) : string := rev_string (lstrip (rev_string (lstrip s))).

Definition is_digit (c : ascii) : bool :=
  let n := nat_of_ascii c in ((48 <=? n) && (n <=? 57))%nat.

Definition digit_value (c : ascii) : Z := Z.of_nat (nat_of_ascii c) - 48.

Definition is_sign (c : ascii) : bool := Ascii.eqb c "+" || Ascii.eqb c "-".

Definition is_exp_mark (c : ascii) : bool := Ascii.eqb c "e" || Ascii.eqb c "E".

(** The digits of an integer literal, single underscores allowed between
    digits: its value and its number of digits. *)
Fixpoint parse_digitpart (s : string) (acc : Z) (ndigits : nat) (prev_digit : bool)
    : option (Z * nat) :=
  match s with
  | EmptyString => if prev_digit then Some (acc, ndigits) else None
  | String c rest =>
      if is_digit c then parse_digitpart rest (10 * acc + digit_value c) (S ndigits) true
      else if Ascii.eqb c "_" && prev_digit then parse_digitpart rest acc ndigits false
      else None
  end.

(** [sys.get_int_max_str_digits()] *)
Definition int_max_str_digits : nat := 4300.

(** [int(s)] on a string, base 10 *)
Definition py_int_of_string (s : string) : Res Z :=
  let invalid := Raise (ValueError ("invalid literal for int() with base 10: '" ++ s ++ "'")) in
  let digits (sign : Z) (t : string) :=
    match parse_digitpart t 0 0 false with
    | None => invalid
    | Some (z, n) =>
        if (int_max_str_digits <? n)%nat
        then Raise (ValueError ("Exceeds the limit (4300 digits) for integer string conversion: value has "
                                ++ z_str (Z.of_nat n)
                                ++ " digits; use sys.set_int_max_str_digits() to increase the limit"))
        else Ok (sign * z)
    end in
  match py_strip s with
  | EmptyString => invalid
  | String c rest =>
      if Ascii.eqb c "-" then digits (-1) rest
      else if Ascii.eqb c "+" then digits 1 rest
      else digits 1 (String c rest)
  end.

(** [int(v)] on the values a JSON payload can carry (its floats are
    finite) *)
Definition py_int (v : PyVal) : Res Z :=
  match v with
  | PInt z => Ok z
  | PBool b => Ok (if b then 1 else 0)
  | PFloat q => Ok (Z.quot (Qnum q) (Zpos (Qden q)))
  | PStr s => py_int_of_string s
  | _ => Raise (TypeError ("int() argument must be a string, a bytes-like object or a real number, not '"
                           ++ py_type_name v ++ "'"))
  end.

(** The states of a recogniser for the float literals [float()] accepts
    besides [inf], [infinity] and [nan]. *)
Inductive FloatLexState :=
| LStart | LSign | LInt | LIntU | LDotNoInt | LDot | LFrac | LFracU
| LExp | LExpSign | LExpDigits | LExpU | LError.

Definition float_lex_step (st : FloatLexState) (c : ascii) : FloatLexState :=
  match st with
  | LStart => if is_sign c then LSign else if is_digit c then LInt
              else if Ascii.eqb c "." then LDotNoInt else LError
  | LSign => if is_digit c then LInt else if Ascii.eqb c "." then LDotNoInt else LError
  | LInt => if is_digit c then LInt else if Ascii.eqb c "_" then LIntU
            else if Ascii.eqb c "." then LDot else if is_exp_mark c then LExp else LError
  | LIntU => if is_digit c then LInt else LError
  | LDotNoInt => if is_digit c then LFrac else LError
  | LDot => if is_digit c then LFrac else if is_exp_mark c then LExp else LError
  | LFrac => if is_digit c then LFrac else if Ascii.eqb c "_" then LFracU
             else if is_exp_mark c then LExp else LError
  | LFracU => if is_digit c then LFrac else LError
  | LExp => if is_sign c then LExpSign else if is_digit c then LExpDigits else LError
  | LExpSign | LExpU => if is_digit c then LExpDigits else LError
  | LExpDigits => if is_digit c then LExpDigits else if Ascii.eqb c "_" then LExpU else LError
  | LError => LError
  end.

Fixpoint float_lex (st : FloatLexState) (s : string) : FloatLexState :=
  match s with
  | EmptyString => st
  | String c rest => float_lex (float_lex_step st c) rest
  end.

Definition float_lex_accepts (st : FloatLexState) : bool :=
  match st with LInt | LDot | LFrac | LExpDigits => true | _ => false end.

Definition ascii_lower (c : ascii) : ascii :=
  let n := nat_of_ascii c in
  if ((65 <=? n) && (n <=? 90))%nat then ascii_of_nat (n + 32) else c.

Fixpoint string_lower (s : string) : string :=
  match s with
  | EmptyString => EmptyString
  | String c rest => String (ascii_lower c) (string_lower rest)
  end.

(** Whether [float(s)] accepts the string [s]: surrounding whitespace,
    then an optional sign and [inf], [infinity] or [nan] in any case, or
    a decimal literal with optional fraction and exponent, single
    underscores allowed between digits. *)
Definition py_float_ok (s : string) : bool :=
  let t := py_strip s in
  let unsigned := match t with String c rest => if is_sign c then rest else t | EmptyString => t end in
  let l := string_lower unsigned in
  String.eqb l "inf" || String.eqb l "infinity" || String.eqb l "nan"
  || float_lex_accepts (float_lex LStart t).

(** ** Floating point

    A Python [float] is an IEEE 754 double: a finite value, or an
    infinity.  [round_double x] is the double nearest the rational [x],
    ties to even, or the infinity of its sign when [|x|] reaches
    [2^1024 - 2^970], half a unit in the last place beyond the largest
    finite double. *)
Inductive PyFloat : Type :=
| FFin (q : Q)
| FInf (positive : bool).

(** The integer nearest [n / d] ([d > 0]), ties to even *)
Definition round_half_even (n d : Z) : Z :=
  let fl := n / d in
  let r := n mod d in
  if 2 * r <? d then fl
  else if d <? 2 * r then fl + 1
  else if Z.even fl then fl else fl + 1.

Definition round_double (x : Q) : PyFloat :=
  let n := Qnum x in
  let d := Zpos (Qden x) in
  if n =? 0 then FFin 0 else
  let a := Z.abs n in
  let sign := if n <? 0 then -1 else 1 in
  let e0 := Z.log2 a - Z.log2 d in
  (* [2^e <= a / d < 2^(e+1)] *)
  let e := if d * 2 ^ Z.max 0 e0 <=? a * 2 ^ Z.max 0 (- e0) then e0 else e0 - 1 in
  (* the unit in the last place: 53 significant bits, subnormals below 2^-1022 *)
  let k := Z.max (e - 52) (-1074) in
  let m := round_half_even (a * 2 ^ Z.max 0 (- k)) (d * 2 ^ Z.max 0 k) in
  if 0 <=? k then
    if 2 ^ 1024 <=? m * 2 ^ k then FInf (0 <? n) else FFin (inject_Z (sign * m * 2 ^ k))
  else FFin (Qred (Qmake (sign * m) (Z.to_pos (2 ^ (- k))))).

(** [float(z)] for an int: [OverflowError] beyond the largest double *)
Definition float_of_int (z : Z) : Res Q :=
  match round_double (inject_Z z) with
  | FFin q => Ok q
  | FInf _ => Raise (OverflowError "int too large to convert to float")
  end.

(** [t < f] for a clock reading [t] and a number [f] *)
Definition time_before (t : Z) (f : PyFloat) : bool :=
  match f with
  | FFin q => match Qcompare (inject_Z t) q with Lt => true | _ => false end
  | FInf positive => positive
  end.

(** ** Network effects *)

Inductive Call : Type :=
| GeocodeGet (address : string)
| TokenPost
| AirportGet (latitude longitude : Q)
| SerpSearch (query : pydict)     (* serpapi.GoogleSearch(query).get_dict() *)
| SerpHttpGet (query : pydict).   (* httpx GET on serpapi.com/search.json *)

(** An HTTP exchange as the code sees it after [await client.get(...)]. *)
Inductive HttpResp (B : Type) : Type :=
| HttpOk (status : Z) (body : B)
| HttpTransportError (msg : string).
Arguments HttpOk {B} status body.
Arguments HttpTransportError {B} msg.

Definition is_success (status : Z) : bool := (200 <=? status) && (status <? 300).

(** [response.raise_for_status(); return body] *)
Definition raise_for_status {B} (r : HttpResp B) : Res B :=
  match r with
  | HttpOk st b =>
      if is_success st then Ok b
      else Raise (HTTPStatusError st ("HTTP status " ++ z_str st))
  | HttpTransportError m => Raise (RequestError m)
  end.

(** The body of an answer as [response.json()] gives it: the decoded JSON
    value, or the decoding error. *)
Definition JsonBody := Res PyVal.

(** ** The world: the token caches and the trace of network calls

    [backend/utils.py] and [backend/routers/airports.py] each declare their
    own module globals [_access_token = None] and [_token_expiry = 0]. *)

Record TokenCache := mkCache { access_token : PyVal; token_expiry : PyFloat }.

Definition initial_cache : TokenCache := mkCache PNone (FFin 0).

Record World := mkWorld {
  utils_cache : TokenCache;
  router_cache : TokenCache;
  calls : list Call
}.

Definition initial_world : World := mkWorld initial_cache initial_cache [].

(** A state and exception monad over [World]: effects performed before an
    exception stay performed, as in Python. *)
Definition M (A : Type) := World -> Res A * World.

Definition ret {A} (a : A) : M A := fun w => (Ok a, w).
Definition throw {A} (e : PyExc) : M A := fun w => (Raise e, w).
Definition bind {A B} (m : M A) (k : A -> M B) : M B :=
  fun w => match m w with
           | (Ok a, w') => k a w'
           | (Raise e, w') => (Raise e, w')
           end.
Definition lift {A} (r : Res A) : M A :=
  match r with Ok a => ret a | Raise e => throw e end.
Definition emit (c : Call) : M unit :=
  fun w => (Ok tt, mkWorld (utils_cache w) (router_cache w) (calls w ++ [c])).
(** [try: m except e: h e] *)
Definition try_except {A} (m : M A) (h : PyExc -> M A) : M A :=
  fun w => match m w with
           | (Ok a, w') => (Ok a, w')
           | (Raise e, w') => h e w'
           end.

Notation "x <- m ;; k" := (bind m (fun x => k))
  (at level 61, m at next level, right associativity).
Notation "m ;;; k" := (bind m (fun _ => k))
  (at level 61, right associativity).

(** ** [get_access_token] (identical in backend/utils.py and
    backend/routers/airports.py)

    [t_check] is the [time.time()] of the validity test, [t_store] the one
    read after the token response; [resp] is what the token endpoint
    answers. *)

(** [float(os.getenv("HTTP_TIMEOUT", 30.0))], evaluated when the client is
    created, before the request; the value only sets the client's timeout,
    whose effect is part of the answer [resp]. *)
Definition http_timeout (env : Environ) : Res unit :=
  match env "HTTP_TIMEOUT" with
  | None => Ok tt
  | Some s =>
      if py_float_ok s then Ok tt
      else Raise (ValueError ("could not convert string to float: '" ++ s ++ "'"))
  end.

(** [time.time() + token_data["expires_in"] - 10], in floating point *)
Definition expiry_of (t_store : Z) (expires_in : PyVal) : Res PyFloat :=
  let plus (x : Q) := round_double (inject_Z t_store + x) in
  let sum :=
    match expires_in with
    | PInt z => match float_of_int z with Ok x => Ok (plus x) | Raise e => Raise e end
    | PBool b => Ok (plus (if b then 1 else 0)%Q)
    | PFloat q => Ok (plus q)
    | _ => Raise (TypeError ("unsupported operand type(s) for +: 'float' and '"
                             ++ py_type_name expires_in ++ "'"))
    end in
  match sum with
  | Ok (FFin q) => Ok (round_double (q - 10)%Q)
  | Ok (FInf b) => Ok (FInf b)
  | Raise e => Raise e
  end.

(** [_access_token and time.time() < _token_expiry] *)
Definition token_is_valid (c : TokenCache) (t_check : Z) : bool :=
  py_truthy (access_token c) && time_before t_check (token_expiry c).

Definition get_access_token (env : Environ) (t_check t_store : Z)
    (resp : HttpResp JsonBody) (c : TokenCache)
    : Res PyVal * TokenCache * list Call :=
  if token_is_valid c t_check then (Ok (access_token c), c, [])
  else if negb (env_truthy env "AMADEUS_CLIENT_ID") || negb (env_truthy env "AMADEUS_CLIENT_SECRET")
  then (Raise (ValueError "Amadeus API credentials not found"), c, [])
  else
    match http_timeout env with
    | Raise e => (Raise e, c, [])
    | Ok _ =>
        (* [client.post(...)], [response.raise_for_status()], [response.json()] *)
        match raise_for_status resp with
        | Raise e => (Raise e, c, [TokenPost])
        | Ok (Raise e) => (Raise e, c, [TokenPost])
        | Ok (Ok token_data) =>
            match py_getitem token_data "access_token" with
            | Raise e => (Raise e, c, [TokenPost])
            | Ok tok =>
                (* [_access_token] is assigned before the expiry is computed *)
                let c1 := mkCache tok (token_expiry c) in
                match py_getitem token_data "expires_in" with
                | Raise e => (Raise e, c1, [TokenPost])
                | Ok v =>
                    match expiry_of t_store v with
                    | Raise e => (Raise e, c1, [TokenPost])
                    | Ok exp => (Ok tok, mkCache tok exp, [TokenPost])
                    end
                end
            end
        end
    end.

(** [backend.utils.get_access_token], on the globals of backend/utils.py *)
Definition utils_get_access_token (env : Environ) (t_check t_store : Z)
    (resp : HttpResp JsonBody) : M PyVal :=
  fun w =>
    let '(r, c', cs) := get_access_token env t_check t_store resp (utils_cache w) in
    (r, mkWorld c' (router_cache w) (calls w ++ cs)).

(** [backend.routers.airports.get_access_token], on its own globals *)
Definition router_get_access_token (env : Environ) (t_check t_store : Z)
    (resp : HttpResp JsonBody) : M PyVal :=
  fun w =>
    let '(r, c', cs) := get_access_token env t_check t_store resp (router_cache w) in
    (r, mkWorld (utils_cache w) c' (calls w ++ cs)).

(** ** Geocoding: [backend.utils.fetch_geolocation] *)

(** [float(format(x, ".4f"))]: the exact value [x] of the JSON number is
    rounded to four decimals, ties to even; the result is the decimal
    [k / 10^4], returned here as its numerator [k]. *)
Definition round4 (x : Q) : Z :=
  let m := 10000 * Qnum x in
  let d := Zpos (Qden x) in
  let fl := m / d in
  let r := m mod d in
  if 2 * r <? d then fl
  else if d <? 2 * r then fl + 1
  else if Z.even fl then fl else fl + 1.

Record Coord := mkCoord { latitude : Q; longitude : Q }.

(** One geocoding result: [geometry.location.lat] and [.lng]. *)
Record GeoResult := mkGeoResult { geo_lat : Q; geo_lng : Q }.

(** The [results] field of the geocoding JSON (absent reads as empty). *)
Definition GeoBody := list GeoResult.

Definition fetch_geolocation (env : Environ) (location : string)
    (resp : HttpResp GeoBody) : M (option Coord) :=
  if negb (env_truthy env "GOOGLE_GEOLOCATION_API")
  then throw (ValueError "Google Developer API not found")
  else
    let normalized := py_strip location in
    emit (GeocodeGet normalized) ;;;
    results <- lift (raise_for_status resp) ;;
    match results with
    | [] => ret None
    | g :: _ =>
        ret (Some (mkCoord (Qmake (round4 (geo_lat g)) 10000)
                           (Qmake (round4 (geo_lng g)) 10000)))
    end.

(** ** Airport lookup *)

(** The Amadeus airport response: status code and the [data] field. *)
Definition AirportBody := list PyVal.

Definition status_response (status : Z) (title : string) : PyVal :=
  PDict [("status", PInt status); ("response", PDict [("title", PStr title)])].

(** [backend.tools.airports.get_airport]; the token comes from
    [backend.utils.get_access_token].  [t1], [t2] are the clock readings of
    the token cache, [tok] the token endpoint's answer, [air] the airport
    endpoint's answer. *)
Definition tools_get_airport (env : Environ) (location : string)
    (geo : HttpResp GeoBody) (t1 t2 : Z) (tok : HttpResp JsonBody)
    (air : HttpResp JsonBody) : M PyVal :=
  try_except
    (coords <- fetch_geolocation env location geo ;;
     match coords with
     | None => ret (status_response 404 ("NO GEOLOCATION DATA FOUND FOR " ++ location))
     | Some c =>
         _access_token <- utils_get_access_token env t1 t2 tok ;;
         emit (AirportGet (latitude c) (longitude c)) ;;;
         match air with
         | HttpTransportError m => throw (RequestError m)
         | HttpOk st body =>
             (* [print("Amadeus API Response:", response.json())] *)
             _ <- lift body ;;
             if st =? 200 then
               nearest_releavant_airports <- lift body ;;
               data <- lift (py_dict_get nearest_releavant_airports "data") ;;
               if negb (py_truthy data)
               then ret (status_response 404 ("NO AIRPORT FOUND NEAR " ++ location))
               else lift (py_getitem nearest_releavant_airports "data")
             else if (st =? 400) || (st =? 404) then
               ret (status_response st ("NO AIRPORT FOUND FOR " ++ location))
             else
               (* [response.raise_for_status()], then the function ends *)
               _ <- lift (raise_for_status air) ;; ret PNone
         end
     end)
    (fun e =>
       match e with
       | HTTPStatusError st _ =>
           ret (status_response st ("FAILED TO FETCH AIRPORT: " ++ exc_str e))
       | _ => ret (status_response 500 ("ERROR PROCESSING REQUEST: " ++ exc_str e))
       end).

(** [backend.routers.airports.get_airport].  Its [fetch_geolocation] is
    imported from [backend/routers/geolocation.py], which is not part of
    the sources; it enters as the computation [geolocate].  The token comes
    from the router module's own [get_access_token]. *)
Definition router_get_airport (env : Environ) (location : string)
    (geolocate : M (option Coord)) (t1 t2 : Z) (tok : HttpResp JsonBody)
    (air : HttpResp AirportBody) : M PyVal :=
  if negb (str_truthy location) || negb (str_truthy (py_strip location))
  then throw (ValueError "Location cannot be empty")
  else
    try_except
      (coords <- geolocate ;;
       match coords with
       | None => ret (status_response 404 ("NO GEOLOCATION DATA FOUND FOR " ++ location))
       | Some c =>
           access_token <- router_get_access_token env t1 t2 tok ;;
           if negb (py_truthy access_token)
           then throw (HTTPException 500 "Failed to obtain access token")
           else
             emit (AirportGet (latitude c) (longitude c)) ;;;
             data <- lift (raise_for_status air) ;;
             match data with
             | [] => throw (HTTPException 404 ("No airports found near " ++ location))
             | _ => ret (PList data)
             end
       end)
      (fun e =>
         match e with
         | HTTPStatusError st _ =>
             throw (HTTPException st ("Failed to fetch airports: " ++ exc_str e))
         | _ => throw (HTTPException 500 ("Error processing request: " ++ exc_str e))
         end).

(** ** Flight search and booking options *)

(** Attribute access on a Python [dict]: a dict has no data attributes, and
    none of the names read below is one of its methods. *)
Definition dict_getattr (d : pydict) (name : string) : Res PyVal :=
  Raise (AttributeError ("'dict' object has no attribute '" ++ name ++ "'")).

Definition dict_hasattr (d : pydict) (name : string) : bool := false.

Definition status_error (status : Z) (msg : string) : pydict :=
  [("status", PInt status); ("error", PStr msg)].

Definition serpapi_base (key : string) : pydict :=
  [("api_key", PStr key); ("engine", PStr "google_flights"); ("hl", PStr "en");
   ("gl", PStr "in"); ("currency", PStr "INR")].

Definition get_py (d : pydict) (k : string) : PyVal := dict_get_or d k PNone.

(** What [GoogleSearch(query_params).get_dict()] gives: the response dict,
    or the exception it raised. *)
Definition SerpOutcome := Res pydict.

(** The [try:] block shared by both [get_flights]. *)
Definition flights_try (query : pydict) (serp : SerpOutcome) : M pydict :=
  try_except
    (emit (SerpSearch query) ;;;
     result <- lift serp ;;
     if negb (dict_mem result "best_flights") && negb (dict_mem result "error")
     then ret (status_error 404 "No flights found for the given parameters")
     else ret result)
    (fun e => ret (status_error 500 ("Failed to fetch flights: " ++ exc_str e))).

(** [backend.utils.get_flights] on a dict request, up to the query it sends *)
Definition utils_get_flights_query (key : string) (params : pydict) : Res pydict :=
  let query_params := serpapi_base key in
  (* [getattr(params, "original_params", params)] is [params] for a dict *)
  let flight_request := params in
  match py_int (get_py flight_request "adults") with
  | Raise e => Raise e
  | Ok adults =>
  match py_int (get_py flight_request "children") with
  | Raise e => Raise e
  | Ok children =>
      let q := dict_update query_params
                 [("departure_id", get_py flight_request "departure_id");
                  ("arrival_id", get_py flight_request "arrival_id");
                  ("outbound_date", get_py flight_request "outbound_date");
                  ("adults", PInt adults); ("children", PInt children);
                  ("departure_token", get_py flight_request "departure_token")] in
      if py_truthy (get_py flight_request "return_date")
      then Ok (dict_set (dict_set q "return_date" (get_py flight_request "return_date")) "type" (PInt 1))
      else Ok (dict_set q "type" (PInt 2))
  end
  end.

Definition utils_get_flights (env : Environ) (params : pydict) (serp : SerpOutcome) : M pydict :=
  match env "SERPAPI_API_KEY" with
  | Some key =>
      if str_truthy key then
        query_params <- lift (utils_get_flights_query key params) ;;
        flights_try query_params serp
      else ret (status_error 500 "SERPAPI_API_KEY not found in environment variables")
  | None => ret (status_error 500 "SERPAPI_API_KEY not found in environment variables")
  end.

(** The pydantic model [FlightsInput] of backend/tools/flights.py *)
Record FlightsInput := mkFlightsInput {
  departure_id : string;
  arrival_id : string;
  outbound_date : string;
  adults : option Z;
  children : option Z;
  return_date : option string
}.

Definition opt_int (o : option Z) : PyVal := match o with Some z => PInt z | None => PNone end.
Definition opt_str (o : option string) : PyVal := match o with Some s => PStr s | None => PNone end.

(** [backend.tools.flights.get_flights], up to the query it sends *)
Definition tools_get_flights_query (key : string) (params : FlightsInput) : Res pydict :=
  let query_params := serpapi_base key in
  let flight_request := params in
  let q := dict_update query_params
             [("departure_id", PStr (departure_id flight_request));
              ("arrival_id", PStr (arrival_id flight_request));
              ("outbound_date", PStr (outbound_date flight_request));
              ("adults", opt_int (adults flight_request));
              ("children", opt_int (children flight_request))] in
  let q_type :=
    if dict_hasattr q "type"
    then match dict_getattr q "type" with Ok v => Ok (dict_set q "type" v) | Raise e => Raise e end
    else Ok (dict_set q "type" (PInt (if py_truthy (opt_str (return_date params)) then 1 else 2))) in
  match q_type with
  | Raise e => Raise e
  | Ok q' =>
      if py_truthy (opt_str (return_date flight_request))
      then Ok (dict_set q' "return_date" (opt_str (return_date flight_request)))
      else Ok q'
  end.

Definition tools_get_flights (env : Environ) (params : FlightsInput) (serp : SerpOutcome) : M pydict :=
  match env "SERPAPI_API_KEY" with
  | Some key =>
      if str_truthy key then
        query_params <- lift (tools_get_flights_query key params) ;;
        flights_try query_params serp
      else ret (status_error 500 "SERPAPI_API_KEY not found in environment variables")
  | None => ret (status_error 500 "SERPAPI_API_KEY not found in environment variables")
  end.

(** The cleaning loop of [backend.utils.fetch_flights]: a float with an
    integral value becomes an int. *)
Definition clean_value (v : PyVal) : PyVal :=
  match v with
  | PFloat q => if Z.rem (Qnum q) (Zpos (Qden q)) =? 0
                then PInt (Z.quot (Qnum q) (Zpos (Qden q))) else v
  | _ => v
  end.

Definition clean_params (params : pydict) : pydict :=
  map (fun kv => (fst kv, clean_value (snd kv))) params.

(** Modelled from the spec: [format_params] of backend.utils, imported by
    backend/routers/flights.py but absent from the sources.  The spec says
    the flight search "normalizes numeric-looking values"; it is taken to be
    the same normalisation as the in-tree loop [clean_params]. *)
Definition format_params (params : pydict) : pydict := clean_params params.

(** [backend.routers.flights.fetch_flights], up to the query it encodes
    into the request URL; [serpapi_key] is the module-level
    [os.getenv("SERPAPI_API_KEY")]. *)
Definition router_fetch_flights_query (env : Environ) (params : pydict) : pydict :=
  let serpapi_parameters :=
    [("api_key", opt_str (env "SERPAPI_API_KEY")); ("engine", PStr "google_flights");
     ("hl", PStr "en"); ("gl", PStr "in"); ("currency", PStr "INR")] in
  let clean := format_params params in
  let clean' :=
    if py_truthy (get_py clean "return_date")
    then dict_set (dict_set clean "return_date" (get_py clean "return_date")) "type" (PInt 1)
    else dict_set clean "type" (PInt 2) in
  dict_update serpapi_parameters clean'.

(** [backend.utils.fetch_flights]: one GET, [raise_for_status], then
    [response.json()]. *)
Definition utils_fetch_flights (env : Environ) (params : pydict) (resp : HttpResp JsonBody) : M PyVal :=
  let query := dict_update [("engine", PStr "google_flights"); ("api_key", opt_str (env "SERPAPI_API_KEY"))]
                           (clean_params params) in
  emit (SerpHttpGet query) ;;;
  body <- lift (raise_for_status resp) ;;
  lift body.

(** [backend.utils.get_booking_options] on the dict its caller passes *)
Definition utils_get_booking_options (env : Environ) (params : pydict) (serp : SerpOutcome) : M pydict :=
  if negb (env_truthy env "SERPAPI_API_KEY")
  then ret (status_error 500 "SERPAPI_API_KEY not found in environment variables")
  else
    let key := match env "SERPAPI_API_KEY" with Some k => k | None => "" end in
    adults <- lift (py_int (get_py params "adults")) ;;
    children <- lift (py_int (get_py params "children")) ;;
    let query_params :=
      (app (serpapi_base key)
      [("departure_id", get_py params "departure_id");
       ("arrival_id", get_py params "arrival_id");
       ("outbound_date", get_py params "outbound_date");
       ("adults", PInt adults); ("children", PInt children);
       ("type", PInt (if py_truthy (get_py params "return_date") then 1 else 2));
       ("booking_token", get_py params "booking_token")]) in
    (* [if params.return_date:] *)
    rd <- lift (dict_getattr params "return_date") ;;
    let query_params := if py_truthy rd then dict_set query_params "return_date" rd else query_params in
    try_except
      (emit (SerpSearch query_params) ;;;
       result <- lift serp ;;
       if negb (dict_mem result "booking_options") && negb (dict_mem result "error")
       then ret (status_error 404 "No booking options found for the given booking token")
       else ret result)
      (fun e => ret (status_error 500 ("Failed to fetch booking options: " ++ exc_str e))).

(** ** The UI manager: frontend/components/ui_manager.py *)

Definition MAX_FLIGHTS : nat := 20.
Definition MAX_BOOKING_OPTIONS : nat := 10.
Definition VIEW_OUTBOUND_CARDS := "outbound cards".
Definition VIEW_RETURN_CARDS := "return cards".
Definition VIEW_OUTBOUND_DETAILS := "outbound details".
Definition VIEW_RETURN_DETAILS := "return details".
Definition VIEW_BOOKING := "booking".
Definition PLACEHOLDER_IMAGE_URL := "https://via.placeholder.com/32".

(** One segment of a flight, with the keys the card reads. *)
Record Leg := mkLeg {
  airline_logo : option string;
  airline : option string;
  departure_airport_id : option string;
  arrival_airport_id : option string
}.

(** A flight of the result set; [price] is [str()] of the JSON price. *)
Record Flight := mkFlight {
  flights : list Leg;
  price : option string;
  total_duration : option Z;
  booking_token : option string;
  departure_token : option string
}.

(** A result set: [best_flights] and [other_flights] (absent reads as []). *)
Record FlightData := mkFlightData { best_flights : list Flight; other_flights : list Flight }.

(** [best_flights + other_flights], with [[]] for a falsy [flight_data] *)
Definition all_flights (flight_data : option FlightData) : list Flight :=
  match flight_data with
  | Some d => best_flights d ++ other_flights d
  | None => []
  end.

(** [l[i]] on a Python list: negative indices count from the end. *)
Definition py_index {A} (l : list A) (i : Z) : Res A :=
  let n := Z.of_nat (List.length l) in
  if (0 <=? i) && (i <? n) then
    match nth_error l (Z.to_nat i) with Some a => Ok a | None => Raise (IndexError "list index out of range") end
  else if (- n <=? i) && (i <? 0) then
    match nth_error l (Z.to_nat (n + i)) with Some a => Ok a | None => Raise (IndexError "list index out of range") end
  else Raise (IndexError "list index out of range").

Definition bytes_str (l : list nat) : string :=
  fold_right (fun n s => String (ascii_of_nat n) s) EmptyString l.

Definition dq : string := bytes_str [34%nat].
Definition nl : string := bytes_str [10%nat].
Definition arrow : string := bytes_str [226%nat; 134%nat; 146%nat].  (* U+2192 in UTF-8 *)
Definition rupee : string := bytes_str [226%nat; 130%nat; 185%nat].  (* U+20B9 in UTF-8 *)

Definition opt_default (o : option string) (d : string) : string :=
  match o with Some s => s | None => d end.

Section UIManager.

(** [format_duration] and [build_details] come from utils/helpers.py,
    which is not part of the sources. *)
Variable format_duration : option Z -> string.
Variable Details : Type.
Variable build_details : Z -> option FlightData -> Details.

Definition logo_html (f : Leg) : string :=
  "<img src=" ++ dq ++ opt_default (airline_logo f) "" ++ dq
  ++ "title=" ++ dq ++ opt_default (airline f) "" ++ dq
  ++ " onerror=" ++ dq ++ "this.src=" ++ PLACEHOLDER_IMAGE_URL ++ dq ++ ">".

(** [UIManager.get_card_html] *)
Definition get_card_html (idx : Z) (flight : Flight) (selected : bool) : string :=
  let legs := flights flight in
  let first := match legs with [] => None | l :: _ => Some l end in
  let last := match legs with [] => None | _ => Some (last legs (mkLeg None None None None)) end in
  let stops := Z.of_nat (List.length legs) - 1 in
  let stops_text :=
    if 0 <? stops then z_str stops ++ " stop" ++ (if negb (stops =? 1) then "s" else "")
    else "Non-stop" in
  let logos := concat "" (map logo_html legs) in
  let selected_class := if selected then "selected" else "" in
  let dep := match first with Some l => opt_default (departure_airport_id l) "" | None => "" end in
  let arr := match last with Some l => opt_default (arrival_airport_id l) "" | None => "" end in
  nl ++ "        <div class=" ++ dq ++ "card " ++ selected_class ++ dq
     ++ " id=" ++ dq ++ "card-" ++ z_str idx ++ dq ++ ">" ++ nl
  ++ "            <div class=" ++ dq ++ "logo-chain" ++ dq ++ ">" ++ logos ++ "</div>" ++ nl
  ++ "            <div class=" ++ dq ++ "route" ++ dq ++ ">" ++ dep ++ " " ++ arrow ++ " " ++ arr ++ "</div>" ++ nl
  ++ "            <div class=" ++ dq ++ "price" ++ dq ++ ">" ++ rupee ++ opt_default (price flight) "N/A" ++ "</div>" ++ nl
  ++ "            <div class=" ++ dq ++ "duration" ++ dq ++ ">" ++ format_duration (total_duration flight) ++ " total</div>" ++ nl
  ++ "            <div class=" ++ dq ++ "stops" ++ dq ++ ">" ++ stops_text ++ "</div>" ++ nl
  ++ "        </div>" ++ nl ++ "        ".

(** [idx == selected], [selected] an int or [None] *)
Definition is_selected (idx : Z) (selected : option Z) : bool :=
  match selected with Some s => idx =? s | None => false end.

(** [UIManager.update_cards] *)
Definition update_cards (selected : option Z) (flight_data : option FlightData) : list string :=
  let fl := all_flights flight_data in
  map (fun idx =>
         if (idx <? List.length fl)%nat
         then get_card_html (Z.of_nat idx) (nth idx fl (mkFlight [] None None None None))
                            (is_selected (Z.of_nat idx) selected)
         else "")
      (seq 0 MAX_FLIGHTS).

(** [UIManager.get_flight_details]; [None] when no branch returns *)
Definition get_flight_details (selected : Z) (flight_data : option FlightData) (params : pydict)
    : option (string * Details) :=
  if py_truthy (get_py params "return_date")
  then Some (VIEW_OUTBOUND_DETAILS, build_details selected flight_data)
  else if py_truthy (get_py params "departure_token")
  then Some (VIEW_RETURN_DETAILS, build_details selected flight_data)
  else if py_truthy (get_py params "booking_token")
  then Some (VIEW_BOOKING, build_details selected flight_data)
  else None.

End UIManager.

(** [UIManager.on_booking_options] (the [ordinal] of the log line is
    taken to return a string) *)
Definition on_booking_options (selected : Z) (flight_data : option FlightData)
    (initial_payload : pydict) (env : Environ) (serp : SerpOutcome) : M (string * PyVal) :=
  let fl := all_flights flight_data in
  f <- lift (py_index fl selected) ;;
  let tok := opt_default (booking_token f) "" in
  if negb (str_truthy tok)
  then ret (VIEW_BOOKING, PDict [("error", PStr "No booking token available")])
  else
    let booking_input := dict_set initial_payload "booking_token" (PStr tok) in
    result <- utils_get_booking_options env booking_input serp ;;
    ret (VIEW_BOOKING, PDict result).

(** [UIManager.on_get_return_flights] *)
Definition on_get_return_flights (selected : Z) (flight_data : option FlightData)
    (initial_payload : pydict) (env : Environ) (resp : HttpResp JsonBody) : M (string * PyVal) :=
  let fl := all_flights flight_data in
  f <- lift (py_index fl selected) ;;
  let tok := opt_default (departure_token f) "" in
  if negb (str_truthy tok)
  then ret (VIEW_RETURN_CARDS, PDict [("error", PStr "No departure token available")])
  else
    let departure_input := dict_set initial_payload "departure_token" (PStr tok) in
    result <- utils_fetch_flights env departure_input resp ;;
    ret (VIEW_RETURN_CARDS, result).

(** [gr.update(visible=..., value=...)]: only the keyword arguments given *)
Record GrUpdate := mkGrUpdate { gr_visible : option bool; gr_value : option string }.

Definition gr_update_visible (b : bool) : GrUpdate := mkGrUpdate (Some b) None.

(** [UIManager.update_flight_interface]: the panel's update, then the
    [MAX_FLIGHTS] card contents, then their [MAX_FLIGHTS] visibilities. *)
Definition update_flight_interface (format_duration : option Z -> string)
    (flight_data : option FlightData) : GrUpdate * list string * list GrUpdate :=
  let fl := all_flights flight_data in
  let visible := match fl with [] => false | _ => true end in
  (gr_update_visible visible,
   map (fun idx =>
          if (idx <? List.length fl)%nat
          then get_card_html format_duration (Z.of_nat idx) (nth idx fl (mkFlight [] None None None None)) false
          else "")
       (seq 0 MAX_FLIGHTS),
   map (fun idx => gr_update_visible (idx <? List.length fl)%nat) (seq 0 MAX_FLIGHTS)).

(** The [together] part of a booking option, with the keys the UI reads;
    [bo_price] is [str()] of the JSON price. *)
Record Together := mkTogether {
  book_with : option string;
  bo_price : option string;
  marketed_as : list string;
  baggage_prices : list string
}.

(** A booking-options answer: its [booking_options] (each with an optional
    [together] part) and [search_parameters.currency]. *)
Record BookingData := mkBookingData {
  booking_options : list (option Together);
  search_currency : option string
}.

(** The elements of the list [update_booking_ui] returns *)
Inductive UIOut := UGr (u : GrUpdate) | UStr (s : string).

Definition booking_info (i : nat) (t : Together) (currency : string) : string :=
  "### Option " ++ z_str (Z.of_nat i + 1) ++ ": " ++ opt_default (book_with t) "Unknown" ++ nl
  ++ "**Price**: " ++ opt_default (bo_price t) "N/A" ++ " " ++ currency ++ nl
  ++ "**Flights**: " ++ String.concat ", " (marketed_as t) ++ nl
  ++ "**Baggage**: " ++ String.concat ", " (baggage_prices t).

Definition empty_together : Together := mkTogether None None [] [].

(** [UIManager.update_booking_ui]: [group_visibles + info_updates +
    button_values], [MAX_BOOKING_OPTIONS] of each. *)
Definition update_booking_ui (booking_data : option BookingData) : list UIOut :=
  let opts := match booking_data with Some b => booking_options b | None => [] end in
  let currency := match booking_data with
                  | Some b => opt_default (search_currency b) "INR"
                  | None => "INR" end in
  let option_at i := match nth i opts None with Some t => t | None => empty_together end in
  map (fun i => UGr (gr_update_visible (i <? List.length opts)%nat)) (seq 0 MAX_BOOKING_OPTIONS)
  ++ map (fun i => UStr (if (i <? List.length opts)%nat
                         then booking_info i (option_at i) currency else ""))
         (seq 0 MAX_BOOKING_OPTIONS)
  ++ map (fun i => UGr (if (i <? List.length opts)%nat
                        then mkGrUpdate (Some true)
                               (Some ("Book with " ++ opt_default (book_with (option_at i)) "Unknown"))
                        else gr_update_visible false))
         (seq 0 MAX_BOOKING_OPTIONS).

(** [UIManager.update_view]: the visibility of the outbound cards, return
    cards, outbound details, return details and booking panels; [None]
    when no branch returns. *)
Definition update_view (view : string) : option (list GrUpdate) :=
  let panels k := map (fun j => gr_update_visible (j =? k)%nat) (seq 0 5) in
  if String.eqb view VIEW_OUTBOUND_CARDS then Some (panels 0%nat)
  else if String.eqb view VIEW_RETURN_CARDS then Some (panels 1%nat)
  else if String.eqb view VIEW_OUTBOUND_DETAILS then Some (panels 2%nat)
  else if String.eqb view VIEW_RETURN_DETAILS then Some (panels 3%nat)
  else if String.eqb view VIEW_BOOKING then Some (panels 4%nat)
  else None.

(** [backend.routers.airports.get_nearest_airports] around the router's
    [get_airport] *)
Definition get_nearest_airports (env : Environ) (location : string)
    (geolocate : M (option Coord)) (t1 t2 : Z) (tok : HttpResp JsonBody)
    (air : HttpResp AirportBody) : M PyVal :=
  try_except
    (result <- router_get_airport env location geolocate t1 t2 tok air ;;
     if negb (py_truthy result)
     then throw (HTTPException 404 ("No airports found near " ++ location))
     else ret result)
    (fun e =>
       match e with
       | HTTPException _ _ => throw e
       | _ => throw (HTTPException 500 "Internal server error")
       end).

(** [backend.routers.flights.fetch_flights].  [merge_flights_fields] comes
    from backend.utils but is not part of the sources; it enters as a
    function.  The body of the answer is [None] when it is not JSON. *)
Definition router_fetch_flights (env : Environ) (merge_flights_fields : PyVal -> PyVal)
    (params : pydict) (resp : HttpResp (option PyVal)) : M PyVal :=
  emit (SerpHttpGet (router_fetch_flights_query env params)) ;;;
  body <- lift (raise_for_status resp) ;;
  match body with
  | None => throw (HTTPException 500 "Failed to parse API response as JSON")
  | Some response_data => ret (merge_flights_fields response_data)
  end.

(** The [POST /api/flights] handler [get_flights]: its [except
    HTTPException as e] reads [e.response], which a FastAPI
    [HTTPException] does not have. *)
Definition router_get_flights (env : Environ) (merge_flights_fields : PyVal -> PyVal)
    (params : pydict) (resp : HttpResp (option PyVal)) : M PyVal :=
  try_except
    (router_fetch_flights env merge_flights_fields params resp)
    (fun e =>
       match e with
       | HTTPException _ _ => throw (AttributeError "'HTTPException' object has no attribute 'response'")
       | _ => throw e
       end).

(** ** The two token pairs, and runs of the program *)

(** The pair of a module: [true] for backend/utils.py, [false] for
    backend/routers/airports.py. *)
Definition pair_of (utils : bool) (w : World) : TokenCache :=
  if utils then utils_cache w else router_cache w.

Definition set_pair (utils : bool) (w : World) (c : TokenCache) : World :=
  if utils then mkWorld c (router_cache w) (calls w)
  else mkWorld (utils_cache w) c (calls w).

(** [m] neither reads nor writes the pair of module [b]: run with any pair
    [c] in its place, it gives the same result, trace and other pair, and
    leaves [c] where it was. *)
Definition ignores_pair {A} (b : bool) (m : M A) : Prop :=
  forall w c, m (set_pair b w c) = (fst (m w), set_pair b (snd (m w)) c).

Definition token_free {A} (m : M A) : Prop := ignores_pair true m /\ ignores_pair false m.

(** One call of an operation of the program, with its inputs. *)
Inductive Op : Type :=
| OpFetchGeolocation (env : Environ) (location : string) (geo : HttpResp GeoBody)
| OpUtilsToken (env : Environ) (t1 t2 : Z) (resp : HttpResp JsonBody)
| OpRouterToken (env : Environ) (t1 t2 : Z) (resp : HttpResp JsonBody)
| OpToolsAirport (env : Environ) (location : string) (geo : HttpResp GeoBody)
    (t1 t2 : Z) (tok air : HttpResp JsonBody)
| OpRouterAirport (env : Environ) (location : string) (geolocate : M (option Coord))
    (t1 t2 : Z) (tok : HttpResp JsonBody) (air : HttpResp AirportBody)
| OpNearestAirports (env : Environ) (location : string) (geolocate : M (option Coord))
    (t1 t2 : Z) (tok : HttpResp JsonBody) (air : HttpResp AirportBody)
| OpUtilsFlights (env : Environ) (params : pydict) (serp : SerpOutcome)
| OpToolsFlights (env : Environ) (params : FlightsInput) (serp : SerpOutcome)
| OpFetchFlights (env : Environ) (params : pydict) (resp : HttpResp JsonBody)
| OpBookingOptions (env : Environ) (params : pydict) (serp : SerpOutcome)
| OpRouterFlights (env : Environ) (merge_flights_fields : PyVal -> PyVal) (params : pydict)
    (resp : HttpResp (option PyVal))
| OpOnBookingOptions (selected : Z) (flight_data : option FlightData) (payload : pydict)
    (env : Environ) (serp : SerpOutcome)
| OpOnReturnFlights (selected : Z) (flight_data : option FlightData) (payload : pydict)
    (env : Environ) (resp : HttpResp JsonBody).

(** The world an operation leaves, whatever it returns or raises *)
Definition op_run (o : Op) (w : World) : World :=
  match o with
  | OpFetchGeolocation env location geo => snd (fetch_geolocation env location geo w)
  | OpUtilsToken env t1 t2 resp => snd (utils_get_access_token env t1 t2 resp w)
  | OpRouterToken env t1 t2 resp => snd (router_get_access_token env t1 t2 resp w)
  | OpToolsAirport env location geo t1 t2 tok air =>
      snd (tools_get_airport env location geo t1 t2 tok air w)
  | OpRouterAirport env location geolocate t1 t2 tok air =>
      snd (router_get_airport env location geolocate t1 t2 tok air w)
  | OpNearestAirports env location geolocate t1 t2 tok air =>
      snd (get_nearest_airports env location geolocate t1 t2 tok air w)
  | OpUtilsFlights env params serp => snd (utils_get_flights env params serp w)
  | OpToolsFlights env params serp => snd (tools_get_flights env params serp w)
  | OpFetchFlights env params resp => snd (utils_fetch_flights env params resp w)
  | OpBookingOptions env params serp => snd (utils_get_booking_options env params serp w)
  | OpRouterFlights env merge params resp => snd (router_get_flights env merge params resp w)
  | OpOnBookingOptions selected fd payload env serp =>
      snd (on_booking_options selected fd payload env serp w)
  | OpOnReturnFlights selected fd payload env resp =>
      snd (on_get_return_flights selected fd payload env resp w)
  end.

(** A run of operations, one after the other *)
Definition run_ops (ops : list Op) (w : World) : World :=
  fold_left (fun w o => op_run o w) ops w.

(** The clock reading of the token-cache test an operation may make *)
Definition op_clock (o : Op) : list Z :=
  match o with
  | OpUtilsToken _ t1 _ _ | OpRouterToken _ t1 _ _
  | OpToolsAirport _ _ _ t1 _ _ _ | OpRouterAirport _ _ _ t1 _ _ _
  | OpNearestAirports _ _ _ t1 _ _ _ => [t1]
  | _ => []
  end.

(** The geolocation computation an operation is given *)
Definition op_geolocate (o : Op) : option (M (option Coord)) :=
  match o with
  | OpRouterAirport _ _ geolocate _ _ _ _ | OpNearestAirports _ _ geolocate _ _ _ _ => Some geolocate
  | _ => None
  end.

(** Operations whose clock readings are all no later than [t], and whose
    geolocation (backend/routers/geolocation.py, not in the sources)
    touches no token pair. *)
Definition ops_before (t : Z) (ops : list Op) : Prop :=
  Forall (fun o => Forall (fun t' => t' <= t) (op_clock o) /\
                   (forall g, op_geolocate o = Some g -> token_free g)) ops.

(** ** Concrete inputs *)

(** An environment with both Amadeus credentials, a SerpAPI key and a
    geocoding key. *)
Definition full_env : Environ :=
  fun k => if String.eqb k "AMADEUS_CLIENT_ID" then Some "client-id"
           else if String.eqb k "AMADEUS_CLIENT_SECRET" then Some "client-secret"
           else if String.eqb k "SERPAPI_API_KEY" then Some "serp-key"
           else if String.eqb k "GOOGLE_GEOLOCATION_API" then Some "geo-key"
           else None.

Definition empty_env : Environ := fun _ => None.

(** The five view names of the UI, and the number of updates that make a
    panel visible. *)
Definition views : list string :=
  [VIEW_OUTBOUND_CARDS; VIEW_RETURN_CARDS; VIEW_OUTBOUND_DETAILS; VIEW_RETURN_DETAILS; VIEW_BOOKING].

Definition shown (l : list GrUpdate) : nat :=
  List.length (filter (fun u => match gr_visible u with Some true => true | _ => false end) l).

(** The status dict of a missing SerpAPI key, and the test whether a
    result dict holds key [k] or ["error"]. *)
Definition key_missing : pydict :=
  status_error 500 "SERPAPI_API_KEY not found in environment variables".

Definition has_result_key (d : pydict) (k : string) : bool :=
  dict_mem d k || dict_mem d "error".

(** The JSON a token endpoint answers *)
Definition token_json (tok : string) (expires_in : Z) : JsonBody :=
  Ok (PDict [("access_token", PStr tok); ("expires_in", PInt expires_in)]).

(** A token answer and a flight carrying only a departure token. *)
Definition sample_token : HttpResp JsonBody := HttpOk 200 (token_json "tok" 1800).

Definition return_leg_flight : Flight := mkFlight [] None None None (Some "dep-tok").

(** * Properties *)

(** ** Dict lemmas *)

Lemma dict_get_set_same (d : pydict) (k : string) (v : PyVal) :
  dict_get (dict_set d k v) k = Some v.
Proof.
  induction d as [|[k' v'] rest IH]; simpl.
  - rewrite String.eqb_refl; reflexivity.
  - destruct (String.eqb k k') eqn:E; simpl; rewrite E; [reflexivity | exact IH].
Qed.

Lemma dict_get_set_other (d : pydict) (k k' : string) (v : PyVal) :
  k <> k' -> dict_get (dict_set d k' v) k = dict_get d k.
Proof.
  intros Hne. induction d as [|[k0 v0] rest IH]; simpl.
  - apply String.eqb_neq in Hne. rewrite Hne. reflexivity.
  - destruct (String.eqb k' k0) eqn:E1; simpl.
    + apply String.eqb_eq in E1. subst k0.
      apply String.eqb_neq in Hne. rewrite Hne. reflexivity.
    + destruct (String.eqb k k0); [reflexivity | exact IH].
Qed.

(** ** Appending to the trace *)

(** A computation only ever adds calls at the end of the trace. *)
Definition appends {A} (m : M A) : Prop :=
  forall w, exists cs, calls (snd (m w)) = (calls w ++ cs)%list.

Lemma appends_ret {A} (a : A) : appends (ret a).
Proof. intros w. exists []. simpl. rewrite app_nil_r. reflexivity. Qed.

Lemma appends_throw {A} (e : PyExc) : appends (@throw A e).
Proof. intros w. exists []. simpl. rewrite app_nil_r. reflexivity. Qed.

Lemma appends_lift {A} (r : Res A) : appends (lift r).
Proof. destruct r; [apply appends_ret | apply appends_throw]. Qed.

Lemma appends_emit (c : Call) : appends (emit c).
Proof. intros w. exists [c]. reflexivity. Qed.

Lemma appends_bind {A B} (m : M A) (k : A -> M B) :
  appends m -> (forall a, appends (k a)) -> appends (bind m k).
Proof.
  intros Hm Hk w. unfold bind. destruct (Hm w) as [cs1 E1].
  destruct (m w) as [[a|e] w'] eqn:Em; simpl in E1 |- *.
  - destruct (Hk a w') as [cs2 E2]. exists (cs1 ++ cs2)%list.
    rewrite E2, E1, app_assoc. reflexivity.
  - exists cs1. exact E1.
Qed.

Lemma appends_try {A} (m : M A) (h : PyExc -> M A) :
  appends m -> (forall e, appends (h e)) -> appends (try_except m h).
Proof.
  intros Hm Hh w. unfold try_except. destruct (Hm w) as [cs1 E1].
  destruct (m w) as [[a|e] w'] eqn:Em; simpl in E1 |- *.
  - exists cs1. exact E1.
  - destruct (Hh e w') as [cs2 E2]. exists (cs1 ++ cs2)%list.
    rewrite E2, E1, app_assoc. reflexivity.
Qed.

Lemma appends_utils_token env t1 t2 resp : appends (utils_get_access_token env t1 t2 resp).
Proof.
  intros w. unfold utils_get_access_token.
  destruct (get_access_token env t1 t2 resp (utils_cache w)) as [[r c'] cs].
  exists cs. reflexivity.
Qed.

Lemma appends_router_token env t1 t2 resp : appends (router_get_access_token env t1 t2 resp).
Proof.
  intros w. unfold router_get_access_token.
  destruct (get_access_token env t1 t2 resp (router_cache w)) as [[r c'] cs].
  exists cs. reflexivity.
Qed.

Create HintDb appends_db.
#[export] Hint Resolve appends_ret appends_throw appends_lift appends_emit
  appends_utils_token appends_router_token : appends_db.

Ltac solve_appends :=
  repeat (intros;
    match goal with
    | |- appends (bind _ _) => apply appends_bind
    | |- appends (try_except _ _) => apply appends_try
    | |- appends (if ?b then _ else _) => destruct b
    | |- appends (match ?x with _ => _ end) => destruct x
    | |- appends _ => auto with appends_db
    end).

(** ** The token cache *)

Ltac destruct_matches :=
  repeat match goal with
         | |- context [match ?x with _ => _ end] => destruct x
         end.

Lemma get_access_token_valid env t1 t2 resp c :
  token_is_valid c t1 = true -> get_access_token env t1 t2 resp c = (Ok (access_token c), c, []).
Proof. intros H. unfold get_access_token. rewrite H. reflexivity. Qed.

Lemma get_access_token_ok_stored env t1 t2 resp c tok c' cs :
  get_access_token env t1 t2 resp c = (Ok tok, c', cs) -> access_token c' = tok.
Proof.
  unfold get_access_token. destruct_matches; intros H; inversion H; subst; reflexivity.
Qed.

Lemma time_before_earlier t t' f :
  t <= t' -> time_before t' f = true -> time_before t f = true.
Proof.
  destruct f as [q|p]; unfold time_before; [|auto].
  intros Ht H. destruct (Qcompare (inject_Z t') q) eqn:E; try discriminate.
  assert (Hlt : (inject_Z t < q)%Q).
  { apply Qle_lt_trans with (inject_Z t'); [rewrite <- Zle_Qle; exact Ht | apply Qlt_alt; exact E]. }
  rewrite (proj1 (Qlt_alt _ _) Hlt). reflexivity.
Qed.

Lemma token_is_valid_earlier c t t' :
  t <= t' -> token_is_valid c t' = true -> token_is_valid c t = true.
Proof.
  unfold token_is_valid. intros Ht H. apply andb_true_iff in H as [H1 H2].
  rewrite H1. apply (time_before_earlier t t' _ Ht H2).
Qed.

Lemma round_half_even_one (n : Z) : round_half_even n 1 = n.
Proof. unfold round_half_even. rewrite Z.div_1_r, Z.mod_1_r. reflexivity. Qed.

(** Integers below [2^53] are doubles. *)
Lemma round_double_int (x : Q) :
  Qden x = 1%positive -> Z.abs (Qnum x) < 2 ^ 53 -> round_double x = FFin (inject_Z (Qnum x)).
Proof.
  destruct x as [n d]; simpl. intros -> Hn. unfold round_double. simpl Qnum. simpl Qden.
  destruct (Z.eqb_spec n 0) as [->|Hn0]; [reflexivity|].
  set (a := Z.abs n). assert (Ha : 0 < a) by (subst a; lia).
  set (sign := if n <? 0 then -1 else 1).
  assert (Hsa : sign * a = n) by (subst sign a; destruct (Z.ltb_spec n 0); lia).
  change (Z.log2 1) with 0. rewrite Z.sub_0_r.
  pose proof (Z.log2_spec a Ha) as [Hl1 Hl2].
  assert (He0 : 0 <= Z.log2 a) by (apply Z.log2_nonneg).
  assert (He53 : Z.log2 a < 53) by (apply Z.log2_lt_pow2; lia).
  rewrite (Z.max_r 0 (Z.log2 a)) by lia. rewrite (Z.max_l 0 (- Z.log2 a)) by lia.
  replace (1 * 2 ^ Z.log2 a <=? a * 2 ^ 0) with true by (symmetry; apply Z.leb_le; lia).
  rewrite (Z.max_l (Z.log2 a - 52) (-1074)) by lia.
  destruct (Z.eq_dec (Z.log2 a) 52) as [E52|E52].
  - rewrite E52. simpl (52 - 52). rewrite Z.max_r by lia. rewrite Z.max_l by lia.
    simpl (2 ^ 0). rewrite !Z.mul_1_r, round_half_even_one. simpl (0 <=? 0). cbv iota.
    replace (2 ^ 1024 <=? a) with false by (symmetry; apply Z.leb_gt; lia).
    rewrite Hsa. reflexivity.
  - rewrite (Z.max_l 0 (Z.log2 a - 52)) by lia. rewrite (Z.max_r 0 (- (Z.log2 a - 52))) by lia.
    rewrite Z.mul_1_l, Z.pow_0_r, round_half_even_one.
    replace (0 <=? Z.log2 a - 52) with false by (symmetry; apply Z.leb_gt; lia).
    set (j := - (Z.log2 a - 52)).
    assert (Hj : 0 < 2 ^ j) by (apply Z.pow_pos_nonneg; lia).
    f_equal. rewrite <- (Qcanon.Qred_identity (inject_Z n)) by (simpl; apply Z.gcd_1_r).
    apply Qred_complete. unfold Qeq. simpl. rewrite Z2Pos.id by exact Hj.
    rewrite Z.mul_assoc, Hsa. lia.
Qed.

(** The four token pairs' operations on a world: lemmas on [set_pair] *)
Lemma set_pair_same b w : set_pair b w (pair_of b w) = w.
Proof. destruct b, w; reflexivity. Qed.

Lemma pair_of_set b w c : pair_of b (set_pair b w c) = c.
Proof. destruct b; reflexivity. Qed.

Lemma ignores_keeps {A} b (m : M A) w : ignores_pair b m -> pair_of b (snd (m w)) = pair_of b w.
Proof.
  intros H. pose proof (H w (pair_of b w)) as E. rewrite set_pair_same in E.
  rewrite E at 1. simpl. apply pair_of_set.
Qed.

Lemma ignores_ret {A} b (a : A) : ignores_pair b (ret a).
Proof. intros w c. reflexivity. Qed.

Lemma ignores_throw {A} b e : ignores_pair b (@throw A e).
Proof. intros w c. reflexivity. Qed.

Lemma ignores_lift {A} b (r : Res A) : ignores_pair b (lift r).
Proof. destruct r; [apply ignores_ret | apply ignores_throw]. Qed.

Lemma ignores_emit b c0 : ignores_pair b (emit c0).
Proof. intros w c. destruct b; reflexivity. Qed.

Lemma ignores_bind {A B} b (m : M A) (k : A -> M B) :
  ignores_pair b m -> (forall a, ignores_pair b (k a)) -> ignores_pair b (bind m k).
Proof.
  intros Hm Hk w c. unfold bind. rewrite Hm.
  destruct (m w) as [[a|e] w']; simpl; [apply Hk | reflexivity].
Qed.

Lemma ignores_try {A} b (m : M A) (h : PyExc -> M A) :
  ignores_pair b m -> (forall e, ignores_pair b (h e)) -> ignores_pair b (try_except m h).
Proof.
  intros Hm Hh w c. unfold try_except. rewrite Hm.
  destruct (m w) as [[a|e] w']; simpl; [reflexivity | apply Hh].
Qed.

Lemma ignores_utils_token env t1 t2 resp : ignores_pair false (utils_get_access_token env t1 t2 resp).
Proof.
  intros w c. unfold utils_get_access_token. simpl.
  destruct (get_access_token env t1 t2 resp (utils_cache w)) as [[r c'] cs]. reflexivity.
Qed.

Lemma ignores_router_token env t1 t2 resp : ignores_pair true (router_get_access_token env t1 t2 resp).
Proof.
  intros w c. unfold router_get_access_token. simpl.
  destruct (get_access_token env t1 t2 resp (router_cache w)) as [[r c'] cs]. reflexivity.
Qed.

Create HintDb ignores_db.
#[export] Hint Resolve ignores_ret ignores_throw ignores_lift ignores_emit
  ignores_utils_token ignores_router_token : ignores_db.

Ltac solve_ignores :=
  repeat (intros;
    match goal with
    | |- ignores_pair _ (bind _ _) => apply ignores_bind
    | |- ignores_pair _ (try_except _ _) => apply ignores_try
    | |- ignores_pair _ (if ?b then _ else _) => destruct b
    | |- ignores_pair _ (match ?x with _ => _ end) => destruct x
    | |- ignores_pair _ _ => solve [auto with ignores_db]
    end).

Lemma ignores_fetch_geolocation b env location geo : ignores_pair b (fetch_geolocation env location geo).
Proof. unfold fetch_geolocation. cbv zeta. solve_ignores. Qed.

Lemma ignores_tools_get_airport env location geo t1 t2 tok air :
  ignores_pair false (tools_get_airport env location geo t1 t2 tok air).
Proof. unfold tools_get_airport. pose proof ignores_fetch_geolocation. solve_ignores. Qed.

Lemma ignores_router_get_airport env location geolocate t1 t2 tok air :
  ignores_pair true geolocate -> ignores_pair true (router_get_airport env location geolocate t1 t2 tok air).
Proof. intros Hg. unfold router_get_airport. solve_ignores. Qed.

Lemma ignores_get_nearest_airports env location geolocate t1 t2 tok air :
  ignores_pair true geolocate -> ignores_pair true (get_nearest_airports env location geolocate t1 t2 tok air).
Proof.
  intros Hg. pose proof (ignores_router_get_airport env location geolocate t1 t2 tok air Hg).
  unfold get_nearest_airports. solve_ignores.
Qed.

Lemma token_free_flights b :
  (forall env params serp, ignores_pair b (utils_get_flights env params serp)) /\
  (forall env fi serp, ignores_pair b (tools_get_flights env fi serp)) /\
  (forall env params resp, ignores_pair b (utils_fetch_flights env params resp)) /\
  (forall env params serp, ignores_pair b (utils_get_booking_options env params serp)) /\
  (forall env merge params resp, ignores_pair b (router_get_flights env merge params resp)).
Proof.
  repeat split; intros.
  - unfold utils_get_flights, flights_try. solve_ignores.
  - unfold tools_get_flights, flights_try. solve_ignores.
  - unfold utils_fetch_flights. cbv zeta. solve_ignores.
  - unfold utils_get_booking_options. cbv zeta. solve_ignores.
  - unfold router_get_flights, router_fetch_flights. solve_ignores.
Qed.

Lemma token_free_ui b :
  (forall selected fd payload env serp, ignores_pair b (on_booking_options selected fd payload env serp)) /\
  (forall selected fd payload env resp, ignores_pair b (on_get_return_flights selected fd payload env resp)).
Proof.
  destruct (token_free_flights b) as [_ [_ [H3 [H4 _]]]].
  split; intros.
  - unfold on_booking_options. cbv zeta. solve_ignores.
  - unfold on_get_return_flights. cbv zeta. solve_ignores.
Qed.

(** [m] leaves the pair of module [b] as it is whenever [P] holds of it *)
Definition keeps_pair_if {A} (b : bool) (P : TokenCache -> Prop) (m : M A) : Prop :=
  forall w, P (pair_of b w) -> pair_of b (snd (m w)) = pair_of b w.

Lemma keeps_of_ignores {A} b P (m : M A) : ignores_pair b m -> keeps_pair_if b P m.
Proof. intros H w _. apply ignores_keeps, H. Qed.

Lemma keeps_bind {A B} b P (m : M A) (k : A -> M B) :
  keeps_pair_if b P m -> (forall a, keeps_pair_if b P (k a)) -> keeps_pair_if b P (bind m k).
Proof.
  intros Hm Hk w HP. unfold bind. pose proof (Hm w HP) as E.
  destruct (m w) as [[a|e] w']; simpl in E |- *; [|exact E].
  rewrite (Hk a w'); [exact E | rewrite E; exact HP].
Qed.

Lemma keeps_try {A} b P (m : M A) (h : PyExc -> M A) :
  keeps_pair_if b P m -> (forall e, keeps_pair_if b P (h e)) -> keeps_pair_if b P (try_except m h).
Proof.
  intros Hm Hh w HP. unfold try_except. pose proof (Hm w HP) as E.
  destruct (m w) as [[a|e] w']; simpl in E |- *; [exact E|].
  rewrite (Hh e w'); [exact E | rewrite E; exact HP].
Qed.

Lemma keeps_utils_token env t1 t2 resp :
  keeps_pair_if true (fun c => token_is_valid c t1 = true) (utils_get_access_token env t1 t2 resp).
Proof.
  intros w H. simpl in H. unfold utils_get_access_token.
  rewrite (get_access_token_valid env t1 t2 resp _ H). reflexivity.
Qed.

Lemma keeps_router_token env t1 t2 resp :
  keeps_pair_if false (fun c => token_is_valid c t1 = true) (router_get_access_token env t1 t2 resp).
Proof.
  intros w H. simpl in H. unfold router_get_access_token.
  rewrite (get_access_token_valid env t1 t2 resp _ H). reflexivity.
Qed.

Ltac solve_keeps :=
  repeat (intros;
    match goal with
    | |- keeps_pair_if _ _ (bind _ _) => apply keeps_bind
    | |- keeps_pair_if _ _ (try_except _ _) => apply keeps_try
    | |- keeps_pair_if _ _ (if ?b then _ else _) => destruct b
    | |- keeps_pair_if _ _ (match ?x with _ => _ end) => destruct x
    | |- keeps_pair_if _ _ _ =>
        solve [assumption | apply keeps_utils_token | apply keeps_router_token
              | apply keeps_of_ignores; auto with ignores_db]
    end).

Lemma keeps_tools_get_airport b env location geo t1 t2 tok air :
  keeps_pair_if b (fun c => token_is_valid c t1 = true) (tools_get_airport env location geo t1 t2 tok air).
Proof.
  destruct b; [|apply keeps_of_ignores, ignores_tools_get_airport].
  pose proof (ignores_fetch_geolocation true env location geo).
  unfold tools_get_airport. solve_keeps.
Qed.

Lemma keeps_router_get_airport b env location geolocate t1 t2 tok air :
  token_free geolocate ->
  keeps_pair_if b (fun c => token_is_valid c t1 = true) (router_get_airport env location geolocate t1 t2 tok air).
Proof.
  intros [Hg1 Hg2]. destruct b; [apply keeps_of_ignores, ignores_router_get_airport, Hg1|].
  unfold router_get_airport. solve_keeps.
Qed.

Lemma keeps_get_nearest_airports b env location geolocate t1 t2 tok air :
  token_free geolocate ->
  keeps_pair_if b (fun c => token_is_valid c t1 = true) (get_nearest_airports env location geolocate t1 t2 tok air).
Proof.
  intros Hg. pose proof (keeps_router_get_airport b env location geolocate t1 t2 tok air Hg).
  unfold get_nearest_airports. solve_keeps.
Qed.

Lemma op_run_keeps b o t w :
  Forall (fun t' => t' <= t) (op_clock o) ->
  (forall g, op_geolocate o = Some g -> token_free g) ->
  token_is_valid (pair_of b w) t = true ->
  pair_of b (op_run o w) = pair_of b w.
Proof.
  intros Hc Hg Hv.
  assert (Ht1 : forall t1, op_clock o = [t1] -> token_is_valid (pair_of b w) t1 = true).
  { intros t1 E. rewrite E in Hc. inversion Hc; subst.
    apply (token_is_valid_earlier _ t1 t); assumption. }
  destruct (token_free_flights b) as [F1 [F2 [F3 [F4 F5]]]].
  destruct (token_free_ui b) as [U1 U2].
  pose proof (ignores_fetch_geolocation b) as G.
  destruct o; simpl in Ht1, Hg |- *; try (apply ignores_keeps; auto; fail).
  - destruct b.
    + apply keeps_utils_token, Ht1; reflexivity.
    + apply ignores_keeps, ignores_utils_token.
  - destruct b.
    + apply ignores_keeps, ignores_router_token.
    + apply keeps_router_token, Ht1; reflexivity.
  - apply keeps_tools_get_airport, Ht1; reflexivity.
  - apply keeps_router_get_airport; [apply Hg; reflexivity | apply Ht1; reflexivity].
  - apply keeps_get_nearest_airports; [apply Hg; reflexivity | apply Ht1; reflexivity].
Qed.

Lemma run_ops_keeps b t ops w :
  ops_before t ops -> token_is_valid (pair_of b w) t = true ->
  pair_of b (run_ops ops w) = pair_of b w.
Proof.
  revert w. induction ops as [|o ops IH]; intros w Hops Hv; [reflexivity|].
  inversion Hops as [|? ? [Hc Hg] Hrest]; subst.
  unfold run_ops. simpl. fold (run_ops ops (op_run o w)).
  pose proof (op_run_keeps b o t w Hc Hg Hv) as E.
  rewrite IH; [exact E | exact Hrest | rewrite E; exact Hv].
Qed.

Lemma later_call_cached b (call : Z -> M PyVal) t' w2 tok :
  (forall w, token_is_valid (pair_of b w) t' = true -> call t' w = (Ok (access_token (pair_of b w)), w)) ->
  access_token (pair_of b w2) = tok -> token_is_valid (pair_of b w2) t' = true ->
  call t' w2 = (Ok tok, w2).
Proof. intros Hcall Ha Hv. rewrite Hcall by exact Hv. rewrite Ha. reflexivity. Qed.

Lemma utils_token_cached env t1 t2 resp w :
  token_is_valid (utils_cache w) t1 = true ->
  utils_get_access_token env t1 t2 resp w = (Ok (access_token (utils_cache w)), w).
Proof.
  intros H. unfold utils_get_access_token. rewrite get_access_token_valid by exact H.
  destruct w; simpl. rewrite app_nil_r. reflexivity.
Qed.

Lemma router_token_cached env t1 t2 resp w :
  token_is_valid (router_cache w) t1 = true ->
  router_get_access_token env t1 t2 resp w = (Ok (access_token (router_cache w)), w).
Proof.
  intros H. unfold router_get_access_token. rewrite get_access_token_valid by exact H.
  destruct w; simpl. rewrite app_nil_r. reflexivity.
Qed.

(** C1 (amended).  [get_access_token], in both copies.  A truthy cached
    token read strictly before the cached expiry is returned as is, with
    the pair unchanged and no network call.  Otherwise: missing
    credentials raise [ValueError] with no network call; so does an
    [HTTP_TIMEOUT] that [float()] rejects; else exactly one token request
    is made.  A failed request or a non-2xx answer raises, as does a body
    that is not JSON or has no [access_token], all with the pair unchanged.
    When [expires_in] is missing or cannot be added to the time, the new
    token is stored, the old expiry kept, and the call raises.  Otherwise
    the token is stored with expiry [t_store + expires_in - 10] computed in
    floating point, which is exactly that integer for integers below
    [2^53], and returned. *)
Theorem C1_get_access_token_contract :
  forall (env : Environ) (t1 t2 : Z) (resp : HttpResp JsonBody) (c : TokenCache),
    let r := get_access_token env t1 t2 resp c in
    (py_truthy (access_token c) = true -> time_before t1 (token_expiry c) = true ->
       r = (Ok (access_token c), c, [])) /\
    (py_truthy (access_token c) = false \/ time_before t1 (token_expiry c) = false ->
       ((env_truthy env "AMADEUS_CLIENT_ID" = false \/ env_truthy env "AMADEUS_CLIENT_SECRET" = false) ->
          r = (Raise (ValueError "Amadeus API credentials not found"), c, [])) /\
       (env_truthy env "AMADEUS_CLIENT_ID" = true -> env_truthy env "AMADEUS_CLIENT_SECRET" = true ->
          (forall e, http_timeout env = Raise e -> r = (Raise e, c, [])) /\
          (http_timeout env = Ok tt ->
             (forall e, raise_for_status resp = Raise e -> r = (Raise e, c, [TokenPost])) /\
             (forall st body, resp = HttpOk st body -> is_success st = true ->
                (forall e, body = Raise e -> r = (Raise e, c, [TokenPost])) /\
                (forall j e, body = Ok j -> py_getitem j "access_token" = Raise e ->
                   r = (Raise e, c, [TokenPost])) /\
                (forall j tok e, body = Ok j -> py_getitem j "access_token" = Ok tok ->
                   (py_getitem j "expires_in" = Raise e \/
                    exists v, py_getitem j "expires_in" = Ok v /\ expiry_of t2 v = Raise e) ->
                   r = (Raise e, mkCache tok (token_expiry c), [TokenPost])) /\
                (forall j tok v exp, body = Ok j -> py_getitem j "access_token" = Ok tok ->
                   py_getitem j "expires_in" = Ok v -> expiry_of t2 v = Ok exp ->
                   r = (Ok tok, mkCache tok exp, [TokenPost])))))) /\
    (forall n, Z.abs n < 2 ^ 53 -> Z.abs (t2 + n) < 2 ^ 53 -> Z.abs (t2 + n - 10) < 2 ^ 53 ->
       expiry_of t2 (PInt n) = Ok (FFin (inject_Z (t2 + n - 10)))).
Proof.
  intros env t1 t2 resp c r. subst r. split; [|split].
  - intros H1 H2. apply get_access_token_valid. unfold token_is_valid. rewrite H1, H2. reflexivity.
  - intros Hn. unfold get_access_token.
    replace (token_is_valid c t1) with false
      by (unfold token_is_valid; destruct Hn as [H|H]; rewrite H; [reflexivity | symmetry; apply andb_false_r]).
    split.
    + intros [H|H]; rewrite H; simpl; [reflexivity|]. rewrite orb_true_r. reflexivity.
    + intros H1 H2. rewrite H1, H2. simpl. split.
      * intros e ->. reflexivity.
      * intros Ht. rewrite Ht. split.
        -- intros e ->. reflexivity.
        -- intros st body -> Hs. simpl. rewrite Hs.
           split; [intros e ->; reflexivity|].
           split; [intros j e -> He; rewrite He; reflexivity|].
           split.
           ++ intros j tok e -> Ha Hx. rewrite Ha.
              destruct Hx as [He|[v [Hv He]]]; [rewrite He | rewrite Hv, He]; reflexivity.
           ++ intros j tok v exp -> Ha Hv He. rewrite Ha, Hv, He. reflexivity.
  - intros n H1 H2 H3. unfold expiry_of, float_of_int.
    rewrite (round_double_int (inject_Z n)) by (simpl; auto).
    rewrite round_double_int by (simpl; lia). simpl Qnum.
    rewrite round_double_int by (simpl; lia). simpl Qnum.
    do 3 f_equal. lia.
Qed.

(** C1: an empty [env] raises without any exchange; a cached empty token
    is refreshed although its expiry lies ahead; an [HTTP_TIMEOUT] of
    ["30s"] raises [ValueError] before any request. *)
Lemma C1_counterexample :
  get_access_token empty_env 0 0 (HttpOk 200 (token_json "tok" 3600)) initial_cache
    = (Raise (ValueError "Amadeus API credentials not found"), initial_cache, [])
  /\ get_access_token full_env 0 0 (HttpOk 200 (token_json "fresh" 3600)) (mkCache (PStr "") (FFin 100))
    = (Ok (PStr "fresh"), mkCache (PStr "fresh") (FFin 3590), [TokenPost])
  /\ get_access_token (fun k => if String.eqb k "HTTP_TIMEOUT" then Some "30s" else full_env k)
       0 0 (HttpOk 200 (token_json "tok" 3600)) initial_cache
    = (Raise (ValueError "could not convert string to float: '30s'"), initial_cache, []).
Proof. split; [|split]; reflexivity. Qed.



(** ** Geocoding and airport lookup *)

Lemma bind_emit_first {A B} (c : Call) (m : M A) (k : A -> M B) (w : World) :
  bind (bind (emit c) (fun _ => m)) k w
  = bind m k (mkWorld (utils_cache w) (router_cache w) (calls w ++ [c])%list).
Proof. reflexivity. Qed.

Lemma round4_spec (x : Q) :
  2 * Z.abs (round4 x * Zpos (Qden x) - 10000 * Qnum x) <= Zpos (Qden x).
Proof.
  unfold round4.
  set (m := 10000 * Qnum x). set (d := Zpos (Qden x)).
  assert (Hd : 0 < d) by (subst d; lia).
  pose proof (Z.div_mod m d ltac:(lia)) as Hdm.
  pose proof (Z.mod_pos_bound m d Hd) as Hr.
  set (fl := m / d) in *. set (r := m mod d) in *.
  assert (E1 : fl * d - m = - r) by lia.
  assert (E2 : (fl + 1) * d - m = d - r) by lia.
  destruct (2 * r <? d) eqn:C1.
  - apply Z.ltb_lt in C1. rewrite E1. lia.
  - apply Z.ltb_ge in C1. destruct (d <? 2 * r) eqn:C2.
    + apply Z.ltb_lt in C2. rewrite E2. lia.
    + apply Z.ltb_ge in C2. destruct (Z.even fl).
      * rewrite E1. lia.
      * rewrite E2. lia.
Qed.

(** C2 (code bug).  The tool-side airport lookup has no emptiness check:
    on a blank location, with the geocoding key configured, it sends a
    geocoding request for the empty address and returns a value instead of
    raising; the HTTP router's lookup raises [ValueError] on the same input
    with no network call. *)
Theorem C2_tools_get_airport_blank_location :
  forall (env : Environ) (location : string) geo t1 t2 tok air w,
    env_truthy env "GOOGLE_GEOLOCATION_API" = true -> py_strip location = "" ->
    (exists v, fst (tools_get_airport env location geo t1 t2 tok air w) = Ok v) /\
    (exists cs, calls (snd (tools_get_airport env location geo t1 t2 tok air w))
                = (calls w ++ GeocodeGet "" :: cs)%list) /\
    (forall geolocate rtok rair,
       router_get_airport env location geolocate t1 t2 rtok rair w
       = (Raise (ValueError "Location cannot be empty"), w)).
Proof.
  intros env location geo t1 t2 tok air w Hk Hs.
  split; [|split].
  3: { intros geolocate rtok rair. unfold router_get_airport. rewrite Hs. simpl.
       rewrite orb_true_r. reflexivity. }
  all: unfold tools_get_airport, fetch_geolocation; rewrite Hk, Hs; cbn [negb];
       unfold try_except; rewrite bind_emit_first;
       match goal with |- context [bind ?R ?K ?W] => set (Rest := bind R K); set (w1 := W) end;
       assert (HA : appends Rest) by (subst Rest; solve_appends);
       destruct (HA w1) as [cs Ecs];
       destruct (Rest w1) as [[v|e] w'] eqn:E; simpl in Ecs |- *.
  - exists v. reflexivity.
  - destruct e; eexists; reflexivity.
  - exists cs. rewrite Ecs, <- app_assoc. reflexivity.
  - exists cs. destruct e; simpl; rewrite Ecs, <- app_assoc; reflexivity.
Qed.

Lemma C2_tools_get_airport_blank_location_witness :
  env_truthy full_env "GOOGLE_GEOLOCATION_API" = true /\ py_strip "   " = "" /\
  (exists v, fst (tools_get_airport full_env "   " (HttpOk 200 []) 0 0
                    sample_token (HttpOk 200 (Ok (PDict []))) initial_world) = Ok v).
Proof.
  split; [reflexivity | split; [reflexivity |]].
  exact (proj1 (C2_tools_get_airport_blank_location full_env "   " (HttpOk 200 []) 0 0
                  sample_token (HttpOk 200 (Ok (PDict []))) initial_world
                  eq_refl eq_refl)).
Defined.

Definition geo_not_found (location : string) : PyVal :=
  status_response 404 ("NO GEOLOCATION DATA FOUND FOR " ++ location).

(** C7.  A successful geocoding answer with no results makes
    [fetch_geolocation] return [None], and the airport lookups turn it into
    the value [{"status": 404, ...}] rather than an exception: the tool
    returns it, and a failed geocoding fetch never yields that value; the
    router returns it too, while a failure there raises.  A non-empty
    answer gives latitude and longitude [k / 10^4] with [k] within half a
    unit of [10^4] times the provider's value. *)
Theorem C7_geocode_not_found_and_rounding :
  forall (env : Environ) (location : string),
    env_truthy env "GOOGLE_GEOLOCATION_API" = true ->
    (forall st w, is_success st = true ->
       fst (fetch_geolocation env location (HttpOk st []) w) = Ok None) /\
    (forall st t1 t2 tok air w, is_success st = true ->
       fst (tools_get_airport env location (HttpOk st []) t1 t2 tok air w)
       = Ok (geo_not_found location)) /\
    (forall geo t1 t2 tok air w e, raise_for_status geo = Raise e ->
       fst (tools_get_airport env location geo t1 t2 tok air w) <> Ok (geo_not_found location)) /\
    (forall geolocate t1 t2 tok air w w', str_truthy (py_strip location) = true ->
       geolocate w = (Ok None, w') ->
       router_get_airport env location geolocate t1 t2 tok air w = (Ok (geo_not_found location), w')) /\
    (forall geolocate t1 t2 tok air w w' e, str_truthy (py_strip location) = true ->
       geolocate w = (Raise e, w') ->
       exists e', fst (router_get_airport env location geolocate t1 t2 tok air w) = Raise e') /\
    (forall st g rest w, is_success st = true ->
       exists c, fst (fetch_geolocation env location (HttpOk st (g :: rest)) w) = Ok (Some c) /\
         (exists k, latitude c = Qmake k 10000 /\
            2 * Z.abs (k * Zpos (Qden (geo_lat g)) - 10000 * Qnum (geo_lat g)) <= Zpos (Qden (geo_lat g))) /\
         (exists k, longitude c = Qmake k 10000 /\
            2 * Z.abs (k * Zpos (Qden (geo_lng g)) - 10000 * Qnum (geo_lng g)) <= Zpos (Qden (geo_lng g)))).
Proof.
  intros env location Hk.
  assert (Hloc : str_truthy (py_strip location) = true ->
            negb (str_truthy location) || negb (str_truthy (py_strip location)) = false).
  { intros Hs. rewrite Hs. destruct location; [discriminate Hs | reflexivity]. }
  split; [|split; [|split; [|split; [|split]]]].
  - intros st w Hst. unfold fetch_geolocation. rewrite Hk. simpl. rewrite Hst. reflexivity.
  - intros st t1 t2 tok air w Hst. unfold tools_get_airport, fetch_geolocation, try_except.
    rewrite Hk. simpl. rewrite Hst. reflexivity.
  - intros geo t1 t2 tok air w e He. unfold tools_get_airport, fetch_geolocation, try_except.
    rewrite Hk. simpl. rewrite He. simpl.
    unfold geo_not_found, status_response.
    destruct e; simpl; intros H; inversion H.
  - intros geolocate t1 t2 tok air w w' Hs Hg. unfold router_get_airport.
    rewrite (Hloc Hs). unfold try_except, bind. rewrite Hg. reflexivity.
  - intros geolocate t1 t2 tok air w w' e Hs Hg. unfold router_get_airport.
    rewrite (Hloc Hs). unfold try_except, bind. rewrite Hg.
    destruct e; eexists; reflexivity.
  - intros st g rest w Hst. unfold fetch_geolocation. rewrite Hk. simpl. rewrite Hst.
    eexists. split; [reflexivity|]. simpl. split.
    + exists (round4 (geo_lat g)). split; [reflexivity | apply round4_spec].
    + exists (round4 (geo_lng g)). split; [reflexivity | apply round4_spec].
Qed.

Lemma C7_geocode_not_found_and_rounding_witness :
  env_truthy full_env "GOOGLE_GEOLOCATION_API" = true /\
  fst (tools_get_airport full_env "Atlantis" (HttpOk 200 []) 0 0
         sample_token (HttpOk 200 (Ok (PDict []))) initial_world)
  = Ok (geo_not_found "Atlantis").
Proof.
  split; [reflexivity|].
  exact (proj1 (proj2 (C7_geocode_not_found_and_rounding full_env "Atlantis" eq_refl))
           200 0 0 sample_token (HttpOk 200 (Ok (PDict []))) initial_world eq_refl).
Defined.

(** ** Flight search *)

Lemma dict_keys_set (d : pydict) (k x : string) (v : PyVal) :
  In x (map fst (dict_set d k v)) <-> In x (map fst d) \/ x = k.
Proof.
  induction d as [|[k' v'] rest IH]; simpl.
  - intuition.
  - destruct (String.eqb k k') eqn:E; simpl.
    + apply String.eqb_eq in E. subst. intuition.
    + rewrite IH. intuition.
Qed.

Lemma dict_set_nodup (d : pydict) (k : string) (v : PyVal) :
  NoDup (map fst d) -> NoDup (map fst (dict_set d k v)).
Proof.
  induction d as [|[k' v'] rest IH]; simpl; intros Hn.
  - constructor; [intros []|constructor].
  - inversion Hn as [|? ? Hnot Hrest]; subst.
    destruct (String.eqb k k') eqn:E; simpl.
    + exact Hn.
    + constructor; [|exact (IH Hrest)].
      rewrite dict_keys_set. intros [H|H]; [exact (Hnot H)|].
      subst. rewrite String.eqb_refl in E. discriminate.
Qed.

Lemma dict_get_update_notin (rest d : pydict) (k : string) :
  ~ In k (map fst rest) -> dict_get (dict_update d rest) k = dict_get d k.
Proof.
  revert d. induction rest as [|[k' v'] rest IH]; intros d Hn; [reflexivity|].
  unfold dict_update. simpl. fold (dict_update (dict_set d k' v') rest).
  simpl in Hn. rewrite IH by tauto. apply dict_get_set_other. intros ->. tauto.
Qed.

Lemma dict_get_update_nodup (d2 d1 : pydict) (k : string) (v : PyVal) :
  NoDup (map fst d2) -> dict_get d2 k = Some v -> dict_get (dict_update d1 d2) k = Some v.
Proof.
  revert d1. induction d2 as [|[k' v'] rest IH]; intros d1 Hn Hg; [discriminate|].
  inversion Hn as [|? ? Hnot Hrest]; subst.
  unfold dict_update. simpl. fold (dict_update (dict_set d1 k' v') rest).
  simpl in Hg. destruct (String.eqb k k') eqn:E.
  - apply String.eqb_eq in E. subst k'. inversion Hg; subst.
    rewrite dict_get_update_notin by exact Hnot. apply dict_get_set_same.
  - apply IH; assumption.
Qed.

Lemma dict_get_clean (d : pydict) (k : string) :
  dict_get (clean_params d) k = option_map clean_value (dict_get d k).
Proof.
  induction d as [|[k' v'] rest IH]; simpl; [reflexivity|].
  destruct (String.eqb k k'); [reflexivity | exact IH].
Qed.

Lemma clean_params_keys (d : pydict) : map fst (clean_params d) = map fst d.
Proof. unfold clean_params. rewrite map_map. reflexivity. Qed.

Lemma get_py_clean_str (d : pydict) (s : string) :
  get_py d "return_date" = PStr s -> get_py (clean_params d) "return_date" = PStr s.
Proof.
  unfold get_py, dict_get_or. rewrite dict_get_clean.
  destruct (dict_get d "return_date"); simpl; intros H; subst; [reflexivity | discriminate].
Qed.

Lemma get_py_clean_none (d : pydict) :
  get_py d "return_date" = PNone -> get_py (clean_params d) "return_date" = PNone.
Proof.
  unfold get_py, dict_get_or. rewrite dict_get_clean.
  destruct (dict_get d "return_date"); simpl; intros H; subst; reflexivity.
Qed.

Lemma str_truthy_nonempty (s : string) : s <> "" -> py_truthy (PStr s) = true.
Proof. intros H. simpl. apply String.eqb_neq in H. rewrite H. reflexivity. Qed.

(** C3.  The three flight searches put [type = 1] into the query they send
    when the request's return date is a non-empty string, and [type = 2]
    when it is absent, [None] or empty: [backend.utils.get_flights] and
    [backend.tools.flights.get_flights] in the query they pass to
    [GoogleSearch], [backend.routers.flights.fetch_flights] in the query
    it encodes into the URL (for a request dict, whose keys are
    distinct). *)
Theorem C3_type_discriminator :
  (forall key params q, utils_get_flights_query key params = Ok q ->
     (forall s, get_py params "return_date" = PStr s -> s <> "" ->
        dict_get q "type" = Some (PInt 1)) /\
     (get_py params "return_date" = PNone \/ get_py params "return_date" = PStr "" ->
        dict_get q "type" = Some (PInt 2))) /\
  (forall key params q, tools_get_flights_query key params = Ok q ->
     (forall s, return_date params = Some s -> s <> "" -> dict_get q "type" = Some (PInt 1)) /\
     (return_date params = None \/ return_date params = Some "" ->
        dict_get q "type" = Some (PInt 2))) /\
  (forall env params, NoDup (map fst params) ->
     (forall s, get_py params "return_date" = PStr s -> s <> "" ->
        dict_get (router_fetch_flights_query env params) "type" = Some (PInt 1)) /\
     (get_py params "return_date" = PNone \/ get_py params "return_date" = PStr "" ->
        dict_get (router_fetch_flights_query env params) "type" = Some (PInt 2))).
Proof.
  split; [|split].
  - intros key params q H. unfold utils_get_flights_query in H.
    destruct (py_int (get_py params "adults")); [|discriminate].
    destruct (py_int (get_py params "children")); [|discriminate].
    split.
    + intros s Hs Hne. rewrite Hs, (str_truthy_nonempty s Hne) in H.
      injection H as <-. reflexivity.
    + intros Hrd. assert (Hf : py_truthy (get_py params "return_date") = false)
        by (destruct Hrd as [E|E]; rewrite E; reflexivity).
      rewrite Hf in H. injection H as <-. reflexivity.
  - intros key params q H. unfold tools_get_flights_query in H. simpl in H.
    split.
    + intros s Hs Hne. rewrite Hs in H. cbn [opt_str] in H.
      rewrite (str_truthy_nonempty s Hne) in H. injection H as <-. reflexivity.
    + intros Hrd. destruct Hrd as [E|E]; rewrite E in H; injection H as <-; reflexivity.
  - intros env params Hn. unfold router_fetch_flights_query, format_params.
    assert (Hc : NoDup (map fst (clean_params params))) by (rewrite clean_params_keys; exact Hn).
    split.
    + intros s Hs Hne. rewrite (get_py_clean_str params s Hs), (str_truthy_nonempty s Hne).
      apply dict_get_update_nodup.
      * apply dict_set_nodup, dict_set_nodup, Hc.
      * apply dict_get_set_same.
    + intros Hrd.
      assert (Hf : py_truthy (get_py (clean_params params) "return_date") = false).
      { destruct Hrd as [E|E].
        - rewrite (get_py_clean_none params E). reflexivity.
        - rewrite (get_py_clean_str params "" E). reflexivity. }
      rewrite Hf. apply dict_get_update_nodup.
      * apply dict_set_nodup, Hc.
      * apply dict_get_set_same.
Qed.

Definition no_flights_found : pydict :=
  status_error 404 "No flights found for the given parameters".

(** C4.  When the SerpAPI key is set and the query is built, a provider
    answer with neither [best_flights] nor [error] makes both
    [get_flights] (backend/utils.py and backend/tools/flights.py) return
    [{"status": 404, "error": "No flights found ..."}] after exactly one
    search; that value is neither a failure value (status 500) nor a
    result carrying [best_flights]. *)
Theorem C4_no_flights_found :
  forall (env : Environ) (key : string) (r : pydict) (w : World),
    env "SERPAPI_API_KEY" = Some key -> str_truthy key = true ->
    dict_mem r "best_flights" = false -> dict_mem r "error" = false ->
    (forall params q, utils_get_flights_query key params = Ok q ->
       utils_get_flights env params (Ok r) w
       = (Ok no_flights_found, mkWorld (utils_cache w) (router_cache w) (calls w ++ [SerpSearch q])%list)) /\
    (forall params q, tools_get_flights_query key params = Ok q ->
       tools_get_flights env params (Ok r) w
       = (Ok no_flights_found, mkWorld (utils_cache w) (router_cache w) (calls w ++ [SerpSearch q])%list)) /\
    (forall msg, no_flights_found <> status_error 500 msg) /\
    dict_mem no_flights_found "best_flights" = false /\
    dict_get no_flights_found "status" = Some (PInt 404).
Proof.
  intros env key r w Hk Hs Hb He.
  split; [|split; [|split; [|split]]].
  - intros params q Hq. unfold utils_get_flights. rewrite Hk, Hs, Hq.
    unfold flights_try, try_except, bind, emit, lift, ret. simpl.
    rewrite Hb, He. reflexivity.
  - intros params q Hq. unfold tools_get_flights. rewrite Hk, Hs, Hq.
    unfold flights_try, try_except, bind, emit, lift, ret. simpl.
    rewrite Hb, He. reflexivity.
  - intros msg H. inversion H.
  - reflexivity.
  - reflexivity.
Qed.

Definition sample_request : pydict :=
  [("departure_id", PStr "AMD"); ("arrival_id", PStr "LHR");
   ("outbound_date", PStr "2025-10-01"); ("adults", PInt 1); ("children", PInt 0)].

Lemma C4_no_flights_found_witness :
  full_env "SERPAPI_API_KEY" = Some "serp-key" /\
  fst (utils_get_flights full_env sample_request (Ok [("search_metadata", PDict [])]) initial_world)
  = Ok no_flights_found.
Proof.
  split; [reflexivity|].
  exact (f_equal fst
           (proj1 (C4_no_flights_found full_env "serp-key" [("search_metadata", PDict [])]
                     initial_world eq_refl eq_refl eq_refl eq_refl) sample_request _ eq_refl)).
Defined.

(** ** Booking options *)

Definition no_return_date_attr : PyExc :=
  AttributeError "'dict' object has no attribute 'return_date'".

(** C8 (code bug).  [backend.utils.get_booking_options], given the dict
    request that [on_booking_options] builds, raises [AttributeError] on
    [params.return_date] once the query is assembled: it never consults
    the provider, so no answer ever becomes the 404 "not found" value. *)
Theorem C8_booking_options_attribute_error :
  forall (env : Environ) (params : pydict) (serp : SerpOutcome) (w : World) a c,
    env_truthy env "SERPAPI_API_KEY" = true ->
    py_int (get_py params "adults") = Ok a -> py_int (get_py params "children") = Ok c ->
    utils_get_booking_options env params serp w = (Raise no_return_date_attr, w).
Proof.
  intros env params serp w a c Hk Ha Hc. unfold utils_get_booking_options.
  rewrite Hk. simpl. unfold bind. rewrite Ha, Hc. reflexivity.
Qed.

Definition sample_booking_request : pydict :=
  dict_set sample_request "booking_token" (PStr "WyJDalJJ").

Lemma C8_booking_options_attribute_error_witness :
  env_truthy full_env "SERPAPI_API_KEY" = true /\
  utils_get_booking_options full_env sample_booking_request (Ok [("search_metadata", PDict [])]) initial_world
  = (Raise no_return_date_attr, initial_world).
Proof.
  split; [reflexivity|].
  exact (C8_booking_options_attribute_error full_env sample_booking_request
           (Ok [("search_metadata", PDict [])]) initial_world 1 0 eq_refl eq_refl eq_refl).
Defined.

(** ** The UI manager *)

(** C5 (amended).  [get_flight_details] picks the view from the request:
    a truthy [return_date] gives outbound details; otherwise a truthy
    [departure_token] gives return details; otherwise a truthy
    [booking_token] gives the booking view; otherwise it returns [None]. *)
Theorem C5_get_flight_details_view :
  forall (Details : Type) (build_details : Z -> option FlightData -> Details)
         (selected : Z) (flight_data : option FlightData) (params : pydict),
    let rd := py_truthy (get_py params "return_date") in
    let dt := py_truthy (get_py params "departure_token") in
    let bt := py_truthy (get_py params "booking_token") in
    let view := get_flight_details Details build_details selected flight_data params in
    (rd = true -> view = Some (VIEW_OUTBOUND_DETAILS, build_details selected flight_data)) /\
    (rd = false -> dt = true -> view = Some (VIEW_RETURN_DETAILS, build_details selected flight_data)) /\
    (rd = false -> dt = false -> bt = true -> view = Some (VIEW_BOOKING, build_details selected flight_data)) /\
    (rd = false -> dt = false -> bt = false -> view = None).
Proof.
  intros Details build_details selected flight_data params rd dt bt view.
  subst view rd dt bt. unfold get_flight_details.
  repeat split; intros; repeat match goal with H : _ = _ |- _ => rewrite H; clear H end;
    reflexivity.
Qed.

(** C5: a request without a return date but with a departure token shows
    return details, and one with none of the three keys shows no view. *)
Lemma C5_counterexample :
  get_flight_details unit (fun _ _ => tt) 0 None [("departure_token", PStr "WyJD")]
    = Some (VIEW_RETURN_DETAILS, tt)
  /\ get_flight_details unit (fun _ _ => tt) 0 None [] = None.
Proof. split; reflexivity. Qed.

Lemma nth_map_seq {B} (f : nat -> B) (n i : nat) (d : B) :
  (i < n)%nat -> nth i (map f (seq 0 n)) d = f i.
Proof.
  intros H. rewrite nth_indep with (d' := f 0%nat) by (rewrite length_map, length_seq; lia).
  rewrite map_nth, seq_nth by lia. reflexivity.
Qed.

Lemma card_nonempty fdur idx flight selected :
  get_card_html fdur idx flight selected <> "".
Proof. unfold get_card_html, nl, bytes_str. simpl. discriminate. Qed.

Lemma card_truthy fdur idx flight selected :
  str_truthy (get_card_html fdur idx flight selected) = true.
Proof. unfold str_truthy. apply negb_true_iff, String.eqb_neq, card_nonempty. Qed.

Lemma update_cards_nth fdur selected flight_data i :
  (i < MAX_FLIGHTS)%nat ->
  nth i (update_cards fdur selected flight_data) ""
  = if (i <? List.length (all_flights flight_data))%nat
    then get_card_html fdur (Z.of_nat i)
           (nth i (all_flights flight_data) (mkFlight [] None None None None))
           (is_selected (Z.of_nat i) selected)
    else "".
Proof. intros H. unfold update_cards. rewrite nth_map_seq by exact H. reflexivity. Qed.

Definition empty_flight : Flight := mkFlight [] None None None None.

(** C6.  [update_cards] yields [MAX_FLIGHTS] = 20 slots; slot [i] is
    non-empty exactly when [i] is below the number of best plus other
    flights; the best flights fill the first slots in order, the other
    flights the next ones; with 3 best and 2 other flights 5 slots are
    non-empty and 15 empty. *)
Theorem C6_update_cards_slots :
  forall (format_duration : option Z -> string) (selected : option Z)
         (flight_data : option FlightData),
    let cards := update_cards format_duration selected flight_data in
    List.length cards = MAX_FLIGHTS /\
    (forall i, (i < MAX_FLIGHTS)%nat ->
       (nth i cards "" <> "" <-> (i < List.length (all_flights flight_data))%nat)) /\
    (forall d i, flight_data = Some d -> (i < MAX_FLIGHTS)%nat ->
       (i < List.length (best_flights d))%nat ->
       nth i cards "" = get_card_html format_duration (Z.of_nat i)
                          (nth i (best_flights d) empty_flight) (is_selected (Z.of_nat i) selected)) /\
    (forall d i, flight_data = Some d -> (i < MAX_FLIGHTS)%nat ->
       (List.length (best_flights d) <= i)%nat ->
       (i < List.length (best_flights d) + List.length (other_flights d))%nat ->
       nth i cards "" = get_card_html format_duration (Z.of_nat i)
                          (nth (i - List.length (best_flights d)) (other_flights d) empty_flight)
                          (is_selected (Z.of_nat i) selected)) /\
    (forall d, flight_data = Some d ->
       List.length (best_flights d) = 3%nat -> List.length (other_flights d) = 2%nat ->
       List.length (filter str_truthy cards) = 5%nat /\
       List.length (filter (fun s => negb (str_truthy s)) cards) = 15%nat).
Proof.
  intros fdur selected flight_data cards. subst cards.
  split; [|split; [|split; [|split]]].
  - unfold update_cards. rewrite length_map, length_seq. reflexivity.
  - intros i Hi. rewrite update_cards_nth by exact Hi.
    destruct (Nat.ltb_spec i (List.length (all_flights flight_data))) as [Hlt|Hge].
    + split; [intros _; exact Hlt | intros _; apply card_nonempty].
    + split; [intros H; exfalso; apply H; reflexivity | intros H; lia].
  - intros d i -> Hi Hb. rewrite update_cards_nth by exact Hi. simpl.
    assert (Hl : (i < List.length (best_flights d ++ other_flights d))%nat)
      by (rewrite length_app; lia).
    apply Nat.ltb_lt in Hl. rewrite Hl. rewrite app_nth1 by exact Hb. reflexivity.
  - intros d i -> Hi Hb Hn. rewrite update_cards_nth by exact Hi. simpl.
    assert (Hl : (i < List.length (best_flights d ++ other_flights d))%nat)
      by (rewrite length_app; lia).
    apply Nat.ltb_lt in Hl. rewrite Hl. rewrite app_nth2 by exact Hb. reflexivity.
  - intros d -> Hb Ho. unfold update_cards. simpl all_flights.
    rewrite length_app, Hb, Ho. cbn -[get_card_html].
    rewrite !card_truthy. split; reflexivity.
Qed.

Lemma C6_update_cards_slots_witness :
  let d := mkFlightData [empty_flight; empty_flight; empty_flight] [empty_flight; empty_flight] in
  Some d = Some d /\ List.length (best_flights d) = 3%nat /\ List.length (other_flights d) = 2%nat /\
  List.length (filter str_truthy (update_cards (fun _ => "1h") (Some 0) (Some d))) = 5%nat.
Proof.
  intros d. split; [reflexivity | split; [reflexivity | split; [reflexivity |]]].
  exact (proj1 (proj2 (proj2 (proj2 (proj2
           (C6_update_cards_slots (fun _ => "1h") (Some 0) (Some d))))) d eq_refl eq_refl eq_refl)).
Defined.

Lemma py_index_out_of_range {A} (l : list A) (i : Z) :
  i < - Z.of_nat (List.length l) \/ Z.of_nat (List.length l) <= i ->
  py_index l i = Raise (IndexError "list index out of range").
Proof.
  intros H. unfold py_index.
  destruct ((0 <=? i) && (i <? Z.of_nat (List.length l))) eqn:E1.
  - apply andb_true_iff in E1 as [E0 E1]. apply Z.leb_le in E0. apply Z.ltb_lt in E1. lia.
  - destruct ((- Z.of_nat (List.length l) <=? i) && (i <? 0)) eqn:E2; [|reflexivity].
    apply andb_true_iff in E2 as [E2 E3]. apply Z.leb_le in E2. apply Z.ltb_lt in E3. lia.
Qed.

(** C10 (amended).  Both selection handlers index the combined flight
    list with Python's list indexing and no bounds check: for an index
    outside [-n, n), n the number of best plus other flights, they raise
    [IndexError] before any network call; so they return normally only for
    an index in [-n, n), negative ones counting from the end. *)
Theorem C10_selection_index :
  forall (selected : Z) (flight_data : option FlightData) (initial_payload : pydict)
         (env : Environ) (serp : SerpOutcome) (resp : HttpResp JsonBody) (w : World),
    let n := Z.of_nat (List.length (all_flights flight_data)) in
    ((selected < - n \/ n <= selected) ->
       on_booking_options selected flight_data initial_payload env serp w
       = (Raise (IndexError "list index out of range"), w) /\
       on_get_return_flights selected flight_data initial_payload env resp w
       = (Raise (IndexError "list index out of range"), w)) /\
    (forall r w', on_booking_options selected flight_data initial_payload env serp w = (Ok r, w') ->
       - n <= selected < n) /\
    (forall r w', on_get_return_flights selected flight_data initial_payload env resp w = (Ok r, w') ->
       - n <= selected < n).
Proof.
  intros selected flight_data initial_payload env serp resp w n.
  assert (Hout : (selected < - n \/ n <= selected) ->
                 on_booking_options selected flight_data initial_payload env serp w
                 = (Raise (IndexError "list index out of range"), w) /\
                 on_get_return_flights selected flight_data initial_payload env resp w
                 = (Raise (IndexError "list index out of range"), w)).
  { intros H. unfold on_booking_options, on_get_return_flights, bind.
    rewrite (py_index_out_of_range (all_flights flight_data) selected H). split; reflexivity. }
  split; [exact Hout | split].
  - intros r w' H. destruct (Z.lt_ge_cases selected (- n)) as [H1|H1];
      [rewrite (proj1 (Hout (or_introl H1))) in H; discriminate|].
    destruct (Z.lt_ge_cases selected n) as [H2|H2]; [lia|].
    rewrite (proj1 (Hout (or_intror H2))) in H; discriminate.
  - intros r w' H. destruct (Z.lt_ge_cases selected (- n)) as [H1|H1];
      [rewrite (proj2 (Hout (or_introl H1))) in H; discriminate|].
    destruct (Z.lt_ge_cases selected n) as [H2|H2]; [lia|].
    rewrite (proj2 (Hout (or_intror H2))) in H; discriminate.
Qed.

(** C10: index -1 on a one-flight result set is outside [0, 1), yet both
    handlers return normally. *)
Lemma C10_counterexample :
  let fd := Some (mkFlightData [empty_flight] []) in
  on_booking_options (-1) fd [] full_env (Ok []) initial_world
    = (Ok (VIEW_BOOKING, PDict [("error", PStr "No booking token available")]), initial_world)
  /\ on_get_return_flights (-1) fd [] full_env (HttpOk 200 (Ok PNone)) initial_world
    = (Ok (VIEW_RETURN_CARDS, PDict [("error", PStr "No departure token available")]), initial_world).
Proof. split; reflexivity. Qed.

(** * Further properties of the code *)

(** ** UI rendering *)

(** [update_flight_interface]: the results panel is visible exactly when
    there is at least one flight; there are [MAX_FLIGHTS] card contents
    and [MAX_FLIGHTS] visibilities, and card [i] is shown, with non-empty
    content, exactly when [i] is below the number of flights. *)
Theorem update_flight_interface_slots :
  forall (format_duration : option Z -> string) (flight_data : option FlightData),
    let out := update_flight_interface format_duration flight_data in
    let n := List.length (all_flights flight_data) in
    fst (fst out) = gr_update_visible (negb (n =? 0)%nat) /\
    List.length (snd (fst out)) = MAX_FLIGHTS /\
    List.length (snd out) = MAX_FLIGHTS /\
    (forall i, (i < MAX_FLIGHTS)%nat ->
       nth i (snd out) (gr_update_visible false) = gr_update_visible (i <? n)%nat /\
       (nth i (snd (fst out)) "" <> "" <-> (i < n)%nat)).
Proof.
  intros fdur fd out n. subst out n. unfold update_flight_interface. cbn [fst snd].
  split; [|split; [|split]].
  - destruct (all_flights fd); reflexivity.
  - rewrite length_map, length_seq. reflexivity.
  - rewrite length_map, length_seq. reflexivity.
  - intros i Hi. rewrite !nth_map_seq by exact Hi. split; [reflexivity|].
    destruct (Nat.ltb_spec i (List.length (all_flights fd))) as [Hlt|Hge].
    + split; [intros _; exact Hlt | intros _; apply card_nonempty].
    + split; [intros H; exfalso; apply H; reflexivity | intros H; lia].
Qed.

Lemma length_map_seq {B} (f : nat -> B) (n : nat) : List.length (map f (seq 0 n)) = n.
Proof. rewrite length_map, length_seq. reflexivity. Qed.

(** [update_booking_ui]: 30 updates, 10 group visibilities, 10 texts and
    10 buttons.  For an option [i] below the number of booking options the
    group is shown, its text is the "### Option i+1" summary (currency from
    [search_parameters], "INR" by default) and its button reads "Book with
    ..."; the remaining slots are hidden with an empty text. *)
Theorem update_booking_ui_slots :
  forall (booking_data : option BookingData),
    let out := update_booking_ui booking_data in
    let opts := match booking_data with Some b => booking_options b | None => [] end in
    let currency := match booking_data with
                    | Some b => opt_default (search_currency b) "INR" | None => "INR" end in
    let d := UStr "" in
    List.length out = (3 * MAX_BOOKING_OPTIONS)%nat /\
    (forall i t, (i < MAX_BOOKING_OPTIONS)%nat -> (i < List.length opts)%nat ->
       (match nth i opts None with Some t' => t' | None => empty_together end) = t ->
       nth i out d = UGr (gr_update_visible true) /\
       nth (MAX_BOOKING_OPTIONS + i) out d = UStr (booking_info i t currency) /\
       nth (2 * MAX_BOOKING_OPTIONS + i) out d
       = UGr (mkGrUpdate (Some true) (Some ("Book with " ++ opt_default (book_with t) "Unknown")))) /\
    (forall i, (i < MAX_BOOKING_OPTIONS)%nat -> (List.length opts <= i)%nat ->
       nth i out d = UGr (gr_update_visible false) /\
       nth (MAX_BOOKING_OPTIONS + i) out d = UStr "" /\
       nth (2 * MAX_BOOKING_OPTIONS + i) out d = UGr (gr_update_visible false)).
Proof.
  intros bd out opts currency d. subst out opts currency d. unfold update_booking_ui.
  set (opts := match bd with Some b => booking_options b | None => [] end).
  set (cur := match bd with Some b => opt_default (search_currency b) "INR" | None => "INR" end).
  set (A := map _ (seq 0 MAX_BOOKING_OPTIONS)).
  set (B := map _ (seq 0 MAX_BOOKING_OPTIONS)).
  set (C := map _ (seq 0 MAX_BOOKING_OPTIONS)).
  assert (LA : List.length A = MAX_BOOKING_OPTIONS) by apply length_map_seq.
  assert (LB : List.length B = MAX_BOOKING_OPTIONS) by apply length_map_seq.
  assert (LC : List.length C = MAX_BOOKING_OPTIONS) by apply length_map_seq.
  assert (N1 : forall i, (i < MAX_BOOKING_OPTIONS)%nat -> nth i (A ++ B ++ C) (UStr "") = nth i A (UStr ""))
    by (intros; apply app_nth1; lia).
  assert (N2 : forall i, (i < MAX_BOOKING_OPTIONS)%nat ->
            nth (MAX_BOOKING_OPTIONS + i) (A ++ B ++ C) (UStr "") = nth i B (UStr "")).
  { intros i Hi. rewrite app_nth2 by lia. rewrite app_nth1 by lia. f_equal; lia. }
  assert (N3 : forall i, (i < MAX_BOOKING_OPTIONS)%nat ->
            nth (2 * MAX_BOOKING_OPTIONS + i) (A ++ B ++ C) (UStr "") = nth i C (UStr "")).
  { intros i Hi. rewrite app_nth2 by lia. rewrite app_nth2 by lia. f_equal; lia. }
  split; [|split].
  - rewrite !length_app, LA, LB, LC. reflexivity.
  - intros i t Hi Hn Ht. rewrite N1, N2, N3 by exact Hi. subst A B C.
    rewrite !nth_map_seq by exact Hi.
    apply Nat.ltb_lt in Hn. rewrite Hn, Ht. auto.
  - intros i Hi Hn. rewrite N1, N2, N3 by exact Hi. subst A B C.
    rewrite !nth_map_seq by exact Hi.
    apply Nat.ltb_ge in Hn. rewrite Hn. auto.
Qed.

Ltac case_views v :=
  destruct (String.eqb v VIEW_OUTBOUND_CARDS) eqn:?;
  [|destruct (String.eqb v VIEW_RETURN_CARDS) eqn:?;
  [|destruct (String.eqb v VIEW_OUTBOUND_DETAILS) eqn:?;
  [|destruct (String.eqb v VIEW_RETURN_DETAILS) eqn:?;
  [|destruct (String.eqb v VIEW_BOOKING) eqn:?]]]].

(** [update_view]: each of the five views makes exactly one of the five
    panels visible, and different views show different panels; any other
    string matches no branch and yields [None]. *)
Theorem update_view_one_panel :
  (forall v l, update_view v = Some l -> List.length l = 5%nat /\ shown l = 1%nat) /\
  (forall v, update_view v = None <-> ~ In v views) /\
  (forall v1 v2 l, update_view v1 = Some l -> update_view v2 = Some l -> v1 = v2).
Proof.
  split; [|split].
  - intros v l H. unfold update_view in H. case_views v; inversion H; subst; split; reflexivity.
  - intros v. unfold update_view, views. split.
    + intros H Hin. simpl in Hin.
      repeat (destruct Hin as [<-|Hin]; [discriminate H|]). exact Hin.
    + intros Hn. case_views v; try reflexivity; exfalso; apply Hn;
        match goal with E : String.eqb _ _ = true |- _ => apply String.eqb_eq in E; subst end;
        simpl; tauto.
  - intros v1 v2 l H1 H2. unfold update_view in H1, H2.
    case_views v1; case_views v2;
      rewrite <- H2 in H1; try discriminate H1;
      repeat match goal with E : String.eqb _ _ = true |- _ => apply String.eqb_eq in E end;
      congruence.
Qed.

(** ** Airport lookup through the router *)

Lemma str_truthy_strip_nonblank (location : string) :
  str_truthy (py_strip location) = true -> str_truthy location = true.
Proof. destruct location; [discriminate | reflexivity]. Qed.

Lemma router_get_airport_outcome_aux env location geolocate t1 t2 tok air w :
  (forall v, fst (router_get_airport env location geolocate t1 t2 tok air w) = Ok v ->
             py_truthy v = true) /\
  (forall e, fst (router_get_airport env location geolocate t1 t2 tok air w) = Raise e ->
             (exists st d, e = HTTPException st d) \/
             (e = ValueError "Location cannot be empty" /\
              snd (router_get_airport env location geolocate t1 t2 tok air w) = w)).
Proof.
  unfold router_get_airport.
  destruct (negb (str_truthy location) || negb (str_truthy (py_strip location))).
  { split; [discriminate|]. intros e He. injection He as <-. right; auto. }
  unfold try_except.
  destruct (bind geolocate _ w) as [[v|e] w'] eqn:Hi; cbn [fst snd].
  - split; [|discriminate]. intros v' Hv. injection Hv as <-.
    unfold bind in Hi.
    destruct (geolocate w) as [[[c|]|e] w1];
      [| injection Hi as <- _; reflexivity | discriminate Hi].
    destruct (router_get_access_token env t1 t2 tok w1) as [[a|e] w2]; [|discriminate Hi].
    destruct (negb (py_truthy a)); [discriminate Hi|].
    unfold emit, lift in Hi. destruct (raise_for_status air) as [d|e]; [|discriminate Hi].
    destruct d; [discriminate Hi | injection Hi as <- _; reflexivity].
  - destruct e; simpl;
      (split; [intros ? Hv; discriminate Hv | intros e' He; injection He as <-; left; eauto]).
Qed.

(** [routers.airports.get_airport]: every value it returns is truthy (a
    status dict or a non-empty airport list), and every exception it raises
    is an [HTTPException], except the [ValueError] of a blank location,
    raised before anything is done. *)
Theorem router_get_airport_outcome :
  forall env location geolocate t1 t2 tok air w,
  (forall v, fst (router_get_airport env location geolocate t1 t2 tok air w) = Ok v ->
             py_truthy v = true) /\
  (forall e, fst (router_get_airport env location geolocate t1 t2 tok air w) = Raise e ->
             (exists st d, e = HTTPException st d) \/
             (e = ValueError "Location cannot be empty" /\
              snd (router_get_airport env location geolocate t1 t2 tok air w) = w)).
Proof. intros. apply router_get_airport_outcome_aux. Qed.

(** [get_nearest_airports] behaves as [get_airport] on a location that is
    not blank: its own "No airports found" check never fires and its
    handler re-raises the [HTTPException]s unchanged.  A blank location
    becomes [HTTPException(500, "Internal server error")], with no network
    call. *)
Theorem get_nearest_airports_composition :
  forall env location geolocate t1 t2 tok air w,
  get_nearest_airports env location geolocate t1 t2 tok air w =
  if str_truthy (py_strip location)
  then router_get_airport env location geolocate t1 t2 tok air w
  else (Raise (HTTPException 500 "Internal server error"), w).
Proof.
  intros. destruct (router_get_airport_outcome_aux env location geolocate t1 t2 tok air w) as [Hok Hexc].
  destruct (str_truthy (py_strip location)) eqn:Hs.
  - unfold get_nearest_airports, try_except, bind.
    destruct (router_get_airport env location geolocate t1 t2 tok air w) as [[v|e] w'] eqn:E.
    + rewrite (Hok v eq_refl). reflexivity.
    + destruct (Hexc e eq_refl) as [[st [d ->]]|[-> _]]; [reflexivity|].
      exfalso. unfold router_get_airport in E.
      rewrite Hs, (str_truthy_strip_nonblank _ Hs) in E. simpl in E.
      unfold try_except in E.
      destruct (bind geolocate _ w) as [[v'|e'] w''] in E; [discriminate E|].
      destruct e'; discriminate E.
  - unfold get_nearest_airports, try_except, bind, router_get_airport.
    destruct (negb (str_truthy location)); rewrite Hs; reflexivity.
Qed.

(** [routers.airports.get_airport] once the location is geocoded and a
    token obtained: an airport answer with a non-2xx status [st] becomes
    [HTTPException(st, ...)] with the status kept; a 2xx answer with no
    airports raises [HTTPException(404)] inside the [try], which the generic
    handler turns into a 500 whose detail embeds "404: ..."; a non-empty
    list is returned after exactly one more call, the airport query. *)
Theorem router_get_airport_status_mapping :
  forall env location geolocate t1 t2 tok w c w1 a w2,
  str_truthy (py_strip location) = true ->
  geolocate w = (Ok (Some c), w1) ->
  router_get_access_token env t1 t2 tok w1 = (Ok a, w2) ->
  py_truthy a = true ->
  (forall st data, is_success st = false ->
     fst (router_get_airport env location geolocate t1 t2 tok (HttpOk st data) w)
     = Raise (HTTPException st ("Failed to fetch airports: HTTP status " ++ z_str st))) /\
  (forall st, is_success st = true ->
     fst (router_get_airport env location geolocate t1 t2 tok (HttpOk st []) w)
     = Raise (HTTPException 500
                ("Error processing request: 404: No airports found near " ++ location))) /\
  (forall st data, is_success st = true -> data <> [] ->
     router_get_airport env location geolocate t1 t2 tok (HttpOk st data) w
     = (Ok (PList data), mkWorld (utils_cache w2) (router_cache w2)
                                 (calls w2 ++ [AirportGet (latitude c) (longitude c)]))).
Proof.
  intros env location geolocate t1 t2 tok w c w1 a w2 Hs Hg Ht Ha.
  assert (E : forall air, router_get_airport env location geolocate t1 t2 tok air w =
    try_except
      (match raise_for_status air with
       | Ok [] => throw (HTTPException 404 ("No airports found near " ++ location))
       | Ok data => ret (PList data)
       | Raise e => throw e
       end)
      (fun e => match e with
                | HTTPStatusError st _ =>
                    throw (HTTPException st ("Failed to fetch airports: " ++ exc_str e))
                | _ => throw (HTTPException 500 ("Error processing request: " ++ exc_str e))
                end)
      (mkWorld (utils_cache w2) (router_cache w2)
               (calls w2 ++ [AirportGet (latitude c) (longitude c)]))).
  { intros air. unfold router_get_airport.
    rewrite Hs, (str_truthy_strip_nonblank _ Hs). simpl.
    unfold try_except, bind at 1. rewrite Hg. unfold bind at 1. rewrite Ht, Ha. simpl.
    unfold emit, bind, lift. destruct (raise_for_status air) as [[|x l]|e]; reflexivity. }
  split; [|split].
  - intros st data Hst. rewrite E. simpl. rewrite Hst. reflexivity.
  - intros st Hst. rewrite E. simpl. rewrite Hst. reflexivity.
  - intros st data Hst Hd. rewrite E. simpl. rewrite Hst.
    destruct data; [congruence | reflexivity].
Qed.

Lemma router_get_airport_status_mapping_witness :
  fst (router_get_airport full_env "Paris" (ret (Some (mkCoord 0 0))) 0 0 sample_token
         (HttpOk 503 []) initial_world)
  = Raise (HTTPException 503 ("Failed to fetch airports: HTTP status " ++ z_str 503)).
Proof.
  exact (proj1 (router_get_airport_status_mapping full_env "Paris" (ret (Some (mkCoord 0 0)))
           0 0 sample_token initial_world (mkCoord 0 0) initial_world (PStr "tok")
           (mkWorld initial_cache (mkCache (PStr "tok") (FFin 1790)) [TokenPost])
           eq_refl eq_refl eq_refl eq_refl) 503 [] eq_refl).
Defined.

(** ** Airport lookup through the tools module *)

Lemma bind_ok {A B} (m : M A) (k : A -> M B) w a w' :
  m w = (Ok a, w') -> bind m k w = k a w'.
Proof. intros H. unfold bind. rewrite H. reflexivity. Qed.

Lemma bind_raise {A B} (m : M A) (k : A -> M B) w e w' :
  m w = (Raise e, w') -> bind m k w = (Raise e, w').
Proof. intros H. unfold bind. rewrite H. reflexivity. Qed.

Lemma py_dict_get_getitem_truthy j k d :
  py_dict_get j k = Ok d -> py_truthy d = true -> py_getitem j k = Ok d.
Proof.
  destruct j; simpl; intros H; try discriminate H.
  unfold dict_get_or in H. destruct (dict_get _ k); injection H as <-; [reflexivity | discriminate].
Qed.

Lemma status_response_truthy st title : py_truthy (status_response st title) = true.
Proof. reflexivity. Qed.

(** [tools.airports.get_airport] never raises: its [except Exception]
    turns every failure into a status dict.  The only falsy value it
    returns is the [None] of an airport answer with a 2xx status other than
    200, which passes [raise_for_status] and falls off the end. *)
Theorem tools_get_airport_never_raises :
  forall env location geo t1 t2 tok air w,
  exists v, fst (tools_get_airport env location geo t1 t2 tok air w) = Ok v /\
  (py_truthy v = false ->
   v = PNone /\ exists st data, air = HttpOk st data /\ is_success st = true /\ st <> 200).
Proof.
  intros. unfold tools_get_airport, try_except.
  destruct (bind (fetch_geolocation env location geo) _ w) as [[v|e] w'] eqn:Hi.
  - exists v. split; [reflexivity|]. intros Hf.
    unfold bind in Hi.
    destruct (fetch_geolocation env location geo w) as [[[c|]|e] w1]; [| |discriminate Hi].
    2: { injection Hi as <- _. discriminate Hf. }
    destruct (utils_get_access_token env t1 t2 tok w1) as [[a|e] w2]; [|discriminate Hi].
    unfold emit in Hi. destruct air as [st data|m]; [|discriminate Hi].
    destruct data as [j|e]; cbv [lift ret throw] in Hi; [|discriminate Hi].
    destruct (st =? 200) eqn:E200.
    { destruct (py_dict_get j "data") as [d|e] eqn:Ed; [|discriminate Hi].
      destruct (py_truthy d) eqn:Etd; cbn [negb] in Hi.
      - rewrite (py_dict_get_getitem_truthy _ _ _ Ed Etd) in Hi. injection Hi as <- _. congruence.
      - injection Hi as <- _. discriminate Hf. }
    destruct ((st =? 400) || (st =? 404)).
    { injection Hi as <- _. discriminate Hf. }
    simpl in Hi. destruct (is_success st) eqn:Es; [|discriminate Hi].
    injection Hi as <- _. split; [reflexivity|].
    exists st, (Ok j). repeat split; auto. apply Z.eqb_neq. exact E200.
  - destruct e; simpl; eexists; (split; [reflexivity | intros Hf; discriminate Hf]).
Qed.

Ltac tools_airport_prefix Hf Ht :=
  unfold tools_get_airport, try_except; rewrite (bind_ok _ _ _ _ _ Hf); cbv beta iota;
  first [rewrite (bind_ok _ _ _ _ _ Ht) | rewrite (bind_raise _ _ _ _ _ Ht)];
  cbv [bind emit lift ret throw].

(** [tools.airports.get_airport] keeps the HTTP status of a failure in the
    dict it returns.  A non-2xx geocoding answer [gst] gives status [gst].
    Once the location is geocoded, a token request failing on a non-2xx
    status [s] gives status [s], any other token failure status 500.  With
    a token, an airport answer whose body is not JSON gives status 500 at
    the [response.json()] of the debug print, whatever its status, with the
    decoding error's message.  For a JSON body: an answer 400 or 404 gives
    that status with "NO AIRPORT FOUND FOR"; any other non-2xx status [st]
    gives [st] with "FAILED TO FETCH AIRPORT"; a 200 answer gives its
    [data] field when truthy, status 404 with "NO AIRPORT FOUND NEAR" when
    [data] is missing or falsy, and status 500 when the JSON value is not a
    dict. *)
Theorem tools_get_airport_status_kept :
  forall env location g rest gst t1 t2 tok st body w,
  env_truthy env "GOOGLE_GEOLOCATION_API" = true ->
  is_success gst = true ->
  let w1 := mkWorld (utils_cache w) (router_cache w) (calls w ++ [GeocodeGet (py_strip location)]) in
  let r := fst (tools_get_airport env location (HttpOk gst (g :: rest)) t1 t2 tok (HttpOk st body) w) in
  (forall gst' gbody tok' air, is_success gst' = false ->
     fst (tools_get_airport env location (HttpOk gst' gbody) t1 t2 tok' air w)
     = Ok (status_response gst' ("FAILED TO FETCH AIRPORT: HTTP status " ++ z_str gst'))) /\
  (forall s m w2, utils_get_access_token env t1 t2 tok w1 = (Raise (HTTPStatusError s m), w2) ->
     r = Ok (status_response s ("FAILED TO FETCH AIRPORT: " ++ m))) /\
  (forall e w2, utils_get_access_token env t1 t2 tok w1 = (Raise e, w2) ->
     (forall s m, e <> HTTPStatusError s m) ->
     r = Ok (status_response 500 ("ERROR PROCESSING REQUEST: " ++ exc_str e))) /\
  (forall a w2, utils_get_access_token env t1 t2 tok w1 = (Ok a, w2) ->
     (forall m, body = Raise (ValueError m) ->
        r = Ok (status_response 500 ("ERROR PROCESSING REQUEST: " ++ m))) /\
     (forall j, body = Ok j ->
        (((st =? 400) || (st =? 404)) = true ->
           r = Ok (status_response st ("NO AIRPORT FOUND FOR " ++ location))) /\
        (is_success st = false -> ((st =? 400) || (st =? 404)) = false ->
           r = Ok (status_response st ("FAILED TO FETCH AIRPORT: HTTP status " ++ z_str st))) /\
        (st = 200 -> forall d, py_dict_get j "data" = Ok d ->
           r = Ok (if py_truthy d then d
                   else status_response 404 ("NO AIRPORT FOUND NEAR " ++ location))) /\
        (st = 200 -> forall e, py_dict_get j "data" = Raise e ->
           r = Ok (status_response 500 ("ERROR PROCESSING REQUEST: " ++ exc_str e))))).
Proof.
  intros env location g rest gst t1 t2 tok st body w Hgeo Hgst w1 r.
  set (c := mkCoord (Qmake (round4 (geo_lat g)) 10000) (Qmake (round4 (geo_lng g)) 10000)).
  assert (Hf : fetch_geolocation env location (HttpOk gst (g :: rest)) w = (Ok (Some c), w1)).
  { unfold fetch_geolocation. rewrite Hgeo. unfold emit, bind, lift, ret. simpl.
    rewrite Hgst. reflexivity. }
  subst r. split; [|split; [|split]].
  - intros gst' gbody tok' air Hg'. unfold tools_get_airport, try_except, bind, fetch_geolocation.
    rewrite Hgeo. unfold emit, lift, bind. simpl. rewrite Hg'. reflexivity.
  - intros s m w2 Ht. tools_airport_prefix Hf Ht. reflexivity.
  - intros e w2 Ht Hne. tools_airport_prefix Hf Ht.
    destruct e; try reflexivity. exfalso. eapply Hne. reflexivity.
  - intros a w2 Ht. split.
    + intros m ->. tools_airport_prefix Hf Ht. reflexivity.
    + intros j ->. split; [|split; [|split]].
      * intros H4. tools_airport_prefix Hf Ht.
        destruct (st =? 200) eqn:E200; [apply Z.eqb_eq in E200; subst st; discriminate H4|].
        rewrite H4. reflexivity.
      * intros Hs H4. tools_airport_prefix Hf Ht.
        destruct (st =? 200) eqn:E200; [apply Z.eqb_eq in E200; subst st; discriminate Hs|].
        rewrite H4. unfold raise_for_status. rewrite Hs. reflexivity.
      * intros -> d Hd. tools_airport_prefix Hf Ht. rewrite Hd.
        destruct (py_truthy d) eqn:Etd; cbn [negb];
          [rewrite (py_dict_get_getitem_truthy _ _ _ Hd Etd)|]; reflexivity.
      * intros -> e He. tools_airport_prefix Hf Ht. rewrite He.
        destruct j; simpl in He; try discriminate He; injection He as <-; reflexivity.
Qed.

Lemma tools_get_airport_status_kept_witness :
  env_truthy full_env "GOOGLE_GEOLOCATION_API" = true /\
  fst (tools_get_airport full_env "Paris" (HttpOk 200 [mkGeoResult 48 2]) 0 0
         sample_token (HttpOk 400 (Ok (PDict []))) initial_world)
  = Ok (status_response 400 ("NO AIRPORT FOUND FOR " ++ "Paris")).
Proof.
  split; [reflexivity|].
  destruct (tools_get_airport_status_kept full_env "Paris" (mkGeoResult 48 2) [] 200 0 0
              sample_token 400 (Ok (PDict [])) initial_world eq_refl eq_refl) as [_ [_ [_ H]]].
  exact (proj1 (proj2 (H (PStr "tok") (mkWorld (mkCache (PStr "tok") (FFin 1790)) initial_cache
                                          [GeocodeGet "Paris"; TokenPost]) eq_refl)
                  (PDict []) eq_refl) eq_refl).
Defined.

(** ** Flight search and booking options *)

(** Without a non-empty [SERPAPI_API_KEY] both [get_flights] and
    [utils.get_booking_options] return the 500 status dict before building
    any query and with no network call.  ([utils.get_booking_options] has
    already printed [params.get("booking_token")], which on a dict raises
    nothing.) *)
Theorem serpapi_key_missing :
  forall env params fi serp w,
  env_truthy env "SERPAPI_API_KEY" = false ->
  utils_get_flights env params serp w = (Ok key_missing, w) /\
  tools_get_flights env fi serp w = (Ok key_missing, w) /\
  utils_get_booking_options env params serp w = (Ok key_missing, w).
Proof.
  intros env params fi serp w H.
  unfold utils_get_flights, tools_get_flights, utils_get_booking_options.
  rewrite H. unfold env_truthy in H.
  destruct (env "SERPAPI_API_KEY") as [key|]; [rewrite H|]; repeat split.
Qed.

Lemma serpapi_key_missing_witness :
  utils_get_flights empty_env [] (Ok []) initial_world = (Ok key_missing, initial_world) /\
  tools_get_flights empty_env (mkFlightsInput "DEL" "BOM" "2025-01-01" (Some 1) None None)
    (Ok []) initial_world = (Ok key_missing, initial_world) /\
  utils_get_booking_options empty_env [] (Ok []) initial_world = (Ok key_missing, initial_world).
Proof.
  exact (serpapi_key_missing empty_env [] (mkFlightsInput "DEL" "BOM" "2025-01-01" (Some 1) None None)
           (Ok []) initial_world eq_refl).
Defined.

Lemma flights_try_shape q serp w :
  exists v, fst (flights_try q serp w) = Ok v /\ has_result_key v "best_flights" = true.
Proof.
  unfold flights_try, try_except, bind, emit, lift, has_result_key.
  destruct serp as [r|e]; simpl; [|eexists; split; reflexivity].
  destruct (dict_mem r "best_flights") eqn:Eb; destruct (dict_mem r "error") eqn:Ee; simpl;
    eexists; (split; [reflexivity|]); rewrite ?Eb, ?Ee; reflexivity.
Qed.

Lemma tools_get_flights_query_ok key fi : exists q, tools_get_flights_query key fi = Ok q.
Proof.
  unfold tools_get_flights_query, dict_hasattr.
  destruct (py_truthy (opt_str (return_date fi))); eexists; reflexivity.
Qed.

(** Every dict the two [get_flights] return holds ["best_flights"] or
    ["error"]: the provider's answer is returned only when it has one of
    them, and each status dict has ["error"].  [tools.flights.get_flights]
    never raises; an exception of [utils.get_flights] is the one [int()]
    raises on ["adults"], or else on ["children"], before any network
    call. *)
Theorem get_flights_result_shape :
  (forall env params serp w,
     (forall v, fst (utils_get_flights env params serp w) = Ok v ->
                has_result_key v "best_flights" = true) /\
     (forall e, fst (utils_get_flights env params serp w) = Raise e ->
                snd (utils_get_flights env params serp w) = w /\
                (py_int (get_py params "adults") = Raise e \/
                 exists adults, py_int (get_py params "adults") = Ok adults /\
                                py_int (get_py params "children") = Raise e))) /\
  (forall env fi serp w,
     exists v, fst (tools_get_flights env fi serp w) = Ok v /\
               has_result_key v "best_flights" = true).
Proof.
  split.
  - intros env params serp w. unfold utils_get_flights.
    destruct (env "SERPAPI_API_KEY") as [key|]; [destruct (str_truthy key)|];
      [| split; [intros v [= <-]; reflexivity | discriminate] ..].
    destruct (utils_get_flights_query key params) as [q|e] eqn:Eq;
      cbv [bind lift ret throw].
    + destruct (flights_try_shape q serp w) as [v [Hv Hs]].
      split; intros x Hx; rewrite Hv in Hx; [injection Hx as <-; exact Hs | discriminate Hx].
    + split; [discriminate|]. intros e' [= <-]. split; [reflexivity|].
      unfold utils_get_flights_query in Eq.
      destruct (py_int (get_py params "adults")) as [a|ea] eqn:Ea.
      * destruct (py_int (get_py params "children")) as [c|ec] eqn:Ec;
          [destruct (py_truthy (get_py params "return_date")); discriminate Eq|].
        injection Eq as <-. right. exists a. auto.
      * injection Eq as <-. left. reflexivity.
  - intros env fi serp w. unfold tools_get_flights.
    destruct (env "SERPAPI_API_KEY") as [key|]; [destruct (str_truthy key)|];
      [| eexists; split; reflexivity ..].
    destruct (tools_get_flights_query_ok key fi) as [q Hq].
    rewrite Hq. cbv [bind lift ret]. apply flights_try_shape.
Qed.

Lemma booking_options_no_call_aux env params serp w :
  snd (utils_get_booking_options env params serp w) = w /\
  (forall v, fst (utils_get_booking_options env params serp w) = Ok v -> v = key_missing).
Proof.
  unfold utils_get_booking_options.
  destruct (negb (env_truthy env "SERPAPI_API_KEY")).
  - split; [reflexivity | intros v [= <-]; reflexivity].
  - unfold bind, lift.
    destruct (py_int (get_py params "adults")); [|split; [reflexivity|discriminate]].
    destruct (py_int (get_py params "children")); [|split; [reflexivity|discriminate]].
    split; [reflexivity|discriminate].
Qed.

(** [utils.get_booking_options] makes no network call whatever its input:
    it either returns the missing-key status dict or raises (from [int()]
    or from [params.return_date] on a dict) before [GoogleSearch] is
    reached. *)
Theorem booking_options_no_call :
  forall env params serp w,
  snd (utils_get_booking_options env params serp w) = w /\
  (forall v, fst (utils_get_booking_options env params serp w) = Ok v -> v = key_missing).
Proof. intros. apply booking_options_no_call_aux. Qed.

(** [UIManager.on_booking_options] never reaches the network (it calls
    [utils.get_booking_options]), and the view it returns is always the
    booking view, with the no-token error or the missing-key status. *)
Theorem on_booking_options_no_call :
  forall selected fd payload env serp w,
  snd (on_booking_options selected fd payload env serp w) = w /\
  (forall view v, fst (on_booking_options selected fd payload env serp w) = Ok (view, v) ->
     view = VIEW_BOOKING /\
     (v = PDict [("error", PStr "No booking token available")] \/ v = PDict key_missing)).
Proof.
  intros. unfold on_booking_options.
  destruct (py_index (all_flights fd) selected) as [f|e]; cbv [bind lift ret throw];
    [|split; [reflexivity|discriminate]].
  destruct (negb (str_truthy (opt_default (booking_token f) ""))).
  - split; [reflexivity|]. intros view v [= <- <-]. auto.
  - set (bi := dict_set payload "booking_token" (PStr (opt_default (booking_token f) ""))).
    destruct (booking_options_no_call_aux env bi serp w) as [Hw Hv].
    destruct (utils_get_booking_options env bi serp w) as [[r|e] w'] eqn:E; simpl in Hw |- *;
      subst w'.
    + split; [reflexivity|]. intros view v [= <- <-]. rewrite (Hv r eq_refl). auto.
    + split; [reflexivity|discriminate].
Qed.

(** ** Direct SerpAPI requests *)

Lemma dict_get_None_notin (d : pydict) (k : string) :
  dict_get d k = None -> ~ In k (map fst d).
Proof.
  induction d as [|[k' v'] rest IH]; simpl; [tauto|].
  destruct (String.eqb k k') eqn:E; [discriminate|].
  apply String.eqb_neq in E. intros Hn [->|Hin]; [congruence | exact (IH Hn Hin)].
Qed.

Lemma dict_get_update_clean (base params : pydict) (k : string) (v : PyVal) :
  NoDup (map fst params) -> dict_get params k = Some v ->
  dict_get (dict_update base (clean_params params)) k = Some (clean_value v).
Proof.
  intros Hn Hg. apply dict_get_update_nodup.
  - rewrite clean_params_keys. exact Hn.
  - rewrite dict_get_clean, Hg. reflexivity.
Qed.

Lemma dict_get_update_clean_absent (base params : pydict) (k : string) :
  dict_get params k = None ->
  dict_get (dict_update base (clean_params params)) k = dict_get base k.
Proof.
  intros Hg. apply dict_get_update_notin. rewrite clean_params_keys.
  apply dict_get_None_notin. exact Hg.
Qed.

Lemma utils_fetch_flights_run env params resp w :
  exists q,
  utils_fetch_flights env params resp w
  = (match raise_for_status resp with Ok body => body | Raise e => Raise e end,
     mkWorld (utils_cache w) (router_cache w) (calls w ++ [SerpHttpGet q])) /\
  (NoDup (map fst params) ->
   forall k v, dict_get params k = Some v -> dict_get q k = Some (clean_value v)) /\
  (dict_get params "engine" = None -> dict_get q "engine" = Some (PStr "google_flights")) /\
  (dict_get params "api_key" = None -> dict_get q "api_key" = Some (opt_str (env "SERPAPI_API_KEY"))).
Proof.
  eexists. split; [|split; [|split]].
  - unfold utils_fetch_flights, bind, emit, lift.
    destruct (raise_for_status resp) as [[b|e]|e]; reflexivity.
  - intros Hn k v Hg. apply dict_get_update_clean; assumption.
  - intros Hg. rewrite dict_get_update_clean_absent by exact Hg. reflexivity.
  - intros Hg. rewrite dict_get_update_clean_absent by exact Hg. reflexivity.
Qed.

(** [utils.fetch_flights] sends exactly one GET, whose query holds every
    key of the request with its value cleaned (an integral float becomes
    an int), [engine] "google_flights" and the [api_key] of the
    environment unless the request sets them.  It returns the decoded JSON
    of a 2xx answer, raises the decoding error of [response.json()] for a
    2xx body that is not JSON, and raises [raise_for_status]'s exception
    for any other answer. *)
Theorem utils_fetch_flights_query_and_result :
  forall env params resp w,
  NoDup (map fst params) ->
  exists q,
  utils_fetch_flights env params resp w
  = (match raise_for_status resp with Ok body => body | Raise e => Raise e end,
     mkWorld (utils_cache w) (router_cache w) (calls w ++ [SerpHttpGet q])) /\
  (forall k v, dict_get params k = Some v -> dict_get q k = Some (clean_value v)) /\
  (dict_get params "engine" = None -> dict_get q "engine" = Some (PStr "google_flights")) /\
  (dict_get params "api_key" = None -> dict_get q "api_key" = Some (opt_str (env "SERPAPI_API_KEY"))).
Proof.
  intros env params resp w Hn.
  destruct (utils_fetch_flights_run env params resp w) as [q [H1 [H2 [H3 H4]]]].
  exists q. auto.
Qed.

Lemma utils_fetch_flights_query_and_result_witness :
  exists q,
  utils_fetch_flights full_env [("adults", PFloat (Qmake 2 1)); ("engine", PStr "google")]
    (HttpOk 200 (Raise (ValueError "Expecting value: line 1 column 1 (char 0)"))) initial_world
  = (Raise (ValueError "Expecting value: line 1 column 1 (char 0)"),
     mkWorld initial_cache initial_cache [SerpHttpGet q]) /\
  (forall k v, dict_get [("adults", PFloat (Qmake 2 1)); ("engine", PStr "google")] k = Some v ->
               dict_get q k = Some (clean_value v)) /\
  (dict_get [("adults", PFloat (Qmake 2 1)); ("engine", PStr "google")] "engine" = None ->
   dict_get q "engine" = Some (PStr "google_flights")) /\
  (dict_get [("adults", PFloat (Qmake 2 1)); ("engine", PStr "google")] "api_key" = None ->
   dict_get q "api_key" = Some (opt_str (full_env "SERPAPI_API_KEY"))).
Proof.
  apply (utils_fetch_flights_query_and_result full_env
           [("adults", PFloat (Qmake 2 1)); ("engine", PStr "google")]
           (HttpOk 200 (Raise (ValueError "Expecting value: line 1 column 1 (char 0)"))) initial_world).
  repeat constructor; simpl; intuition discriminate.
Defined.

(** The [POST /api/flights] handler [get_flights] sends one GET with the
    router's query whatever the answer; a non-2xx answer raises the
    [HTTPStatusError] of [raise_for_status] (it is not an [HTTPException],
    so it passes through); a 2xx body that is not JSON raises an
    [AttributeError] instead of the intended 500 [HTTPException]; a JSON
    body is returned through [merge_flights_fields]. *)
Theorem router_get_flights_outcome :
  forall env merge params w,
  (forall resp, snd (router_get_flights env merge params resp w)
     = mkWorld (utils_cache w) (router_cache w)
               (calls w ++ [SerpHttpGet (router_fetch_flights_query env params)])) /\
  (forall st b, is_success st = false ->
     fst (router_get_flights env merge params (HttpOk st b) w)
     = Raise (HTTPStatusError st ("HTTP status " ++ z_str st))) /\
  (forall st, is_success st = true ->
     fst (router_get_flights env merge params (HttpOk st None) w)
     = Raise (AttributeError "'HTTPException' object has no attribute 'response'")) /\
  (forall st j, is_success st = true ->
     fst (router_get_flights env merge params (HttpOk st (Some j)) w) = Ok (merge j)).
Proof.
  intros env merge params w.
  unfold router_get_flights, router_fetch_flights, try_except, bind, emit, lift.
  split; [|split; [|split]].
  - intros [st [j|]|m]; simpl; try destruct (is_success st); reflexivity.
  - intros st b Hs. simpl. rewrite Hs. reflexivity.
  - intros st Hs. simpl. rewrite Hs. reflexivity.
  - intros st j Hs. simpl. rewrite Hs. reflexivity.
Qed.

(** [UIManager.on_get_return_flights] on a selected flight with a departure
    token: one GET, whose query carries that token and every other key of
    the initial payload with its cleaned value.  The return-cards view
    comes with the decoded JSON of a 2xx answer; a 2xx body that is not
    JSON raises its decoding error, and a failed answer raises. *)
Theorem on_get_return_flights_request :
  forall selected fd payload env resp w f tok,
  py_index (all_flights fd) selected = Ok f ->
  departure_token f = Some tok -> str_truthy tok = true ->
  NoDup (map fst payload) ->
  exists q,
  on_get_return_flights selected fd payload env resp w
  = (match raise_for_status resp with
     | Ok (Ok b) => Ok (VIEW_RETURN_CARDS, b)
     | Ok (Raise e) => Raise e
     | Raise e => Raise e
     end,
     mkWorld (utils_cache w) (router_cache w) (calls w ++ [SerpHttpGet q])) /\
  dict_get q "departure_token" = Some (PStr tok) /\
  (forall k v, k <> "departure_token" -> dict_get payload k = Some v ->
               dict_get q k = Some (clean_value v)).
Proof.
  intros selected fd payload env resp w f tok Hi Hd Ht Hn.
  set (di := dict_set payload "departure_token" (PStr tok)).
  destruct (utils_fetch_flights_run env di resp w) as [q [Hrun [Hq _]]].
  assert (Hn' : NoDup (map fst di)) by (apply dict_set_nodup; exact Hn).
  exists q. split; [|split].
  - unfold on_get_return_flights. rewrite Hi. cbv [bind lift ret].
    replace (opt_default (departure_token f) "") with tok by (rewrite Hd; reflexivity).
    rewrite Ht. cbv [negb].
    fold di. rewrite Hrun. destruct (raise_for_status resp) as [[b|e]|e]; reflexivity.
  - exact (Hq Hn' "departure_token" (PStr tok) (dict_get_set_same _ _ _)).
  - intros k v Hk Hg. apply (Hq Hn'). unfold di. rewrite dict_get_set_other by exact Hk. exact Hg.
Qed.

Lemma on_get_return_flights_request_witness :
  exists q,
  on_get_return_flights 0 (Some (mkFlightData [return_leg_flight] [])) [("adults", PInt 1)]
    full_env (HttpOk 200 (Ok (PDict []))) initial_world
  = (Ok (VIEW_RETURN_CARDS, PDict []), mkWorld initial_cache initial_cache [SerpHttpGet q]) /\
  dict_get q "departure_token" = Some (PStr "dep-tok") /\
  (forall k v, k <> "departure_token" -> dict_get [("adults", PInt 1)] k = Some v ->
               dict_get q k = Some (clean_value v)).
Proof.
  apply (on_get_return_flights_request 0 (Some (mkFlightData [return_leg_flight] []))
           [("adults", PInt 1)] full_env (HttpOk 200 (Ok (PDict []))) initial_world return_leg_flight "dep-tok");
    [reflexivity | reflexivity | reflexivity |].
  repeat constructor; simpl; intuition discriminate.
Defined.
